(** * Weaviate vector-store adapter

    A shallow embedding of
    [api/core/rag/datasource/vdb/weaviate/weaviate_vector.py]:
    the configuration validator, the derivation of collection names, schema
    creation, the batch writer, the existence check and the two searches,
    followed by the properties the specification states about them.

    Python dictionaries are finite maps ([gmap string value]), Python
    exceptions are the [Raise] case of [result], and the Weaviate client the
    adapter holds is an explicit state threaded through the monad [M]. *)

From Stdlib Require Import QArith Ascii.
From stdpp Require Import gmap strings list fin_maps.

#[local] Set Warnings "-register-all".

(** ** Python values *)

Module Py.

(** [datetime.datetime]: the calendar fields and the offset from UTC in
    minutes ([None] for a naive value). *)
Record datetime := Datetime {
  year : nat; month : nat; day : nat;
  hour : nat; minute : nat; second : nat; microsecond : nat;
  utcoffset : option Z
}.

(** The values that flow through the adapter: JSON values as [json] parses
    them, and [datetime.datetime] objects found in document metadata. A float
    is the rational it denotes. *)
Inductive value :=
| VNone
| VBool (b : bool)
| VInt (z : Z)
| VFloat (q : Q)
| VStr (s : string)
| VDatetime (d : datetime)
| VList (l : list value)
| VDict (d : gmap string value).

Abbreviation dict := (gmap string value).

(** Message of an exception: literal text followed by the values an f-string
    interpolates into it. *)
Inductive exn :=
| ValueError (msg : string) (interpolated : list value)
| KeyError (key : string)
| IndexError
| TypeError
| AttributeError
| ValidationError (errors : list exn)
| ConnectionError (msg : string)
| RequestsConnectionError
| UnexpectedStatusCodeException.

Inductive result (A : Type) :=
| Ok (a : A)
| Raise (e : exn).
Arguments Ok {A} a.
Arguments Raise {A} e.

#[global] Instance result_ret : MRet result := fun A a => Ok a.
#[global] Instance result_bind : MBind result := fun A B f m =>
  match m with
  | Ok a => f a
  | Raise e => Raise e
  end.
#[global] Instance result_fmap : FMap result := fun A B f m =>
  match m with
  | Ok a => Ok (f a)
  | Raise e => Raise e
  end.

(** The number a numeric value denotes ([bool] is a subclass of [int]). *)
Definition num (v : value) : option Q :=
  match v with
  | VBool b => Some (inject_Z (if b then 1 else 0))
  | VInt z => Some (inject_Z z)
  | VFloat q => Some q
  | _ => None
  end.

Definition Qgtb (a b : Q) : bool :=
  match (a ?= b)%Q with
  | Gt => true
  | _ => false
  end.

(** The day number of a date of the proleptic Gregorian calendar, counted
    from 1970-01-01, and the microseconds of the wall-clock reading of a
    date/time value counted from there. *)
Definition days_from_civil (y m d : Z) : Z :=
  let y := if (m <=? 2)%Z then (y - 1)%Z else y in
  let era := (y / 400)%Z in
  let yoe := (y - era * 400)%Z in
  let mp := if (2 <? m)%Z then (m - 3)%Z else (m + 9)%Z in
  let doy := ((153 * mp + 2) / 5 + d - 1)%Z in
  let doe := (yoe * 365 + yoe / 4 - yoe / 100 + doy)%Z in
  (era * 146097 + doe - 719468)%Z.

Definition datetime_micros (d : datetime) : Z :=
  ((((days_from_civil (Z.of_nat (year d)) (Z.of_nat (month d)) (Z.of_nat (day d)) * 24
      + Z.of_nat (hour d)) * 60
     + Z.of_nat (minute d)) * 60
    + Z.of_nat (second d)) * 1000000
   + Z.of_nat (microsecond d))%Z.

(** How two date/time values compare: two naive values by their readings,
    two aware values by the instants they denote; a naive and an aware value
    do not compare. *)
Definition datetime_compare (a b : datetime) : option comparison :=
  match utcoffset a, utcoffset b with
  | None, None => Some (datetime_micros a ?= datetime_micros b)%Z
  | Some oa, Some ob =>
      Some (datetime_micros a - oa * 60000000 ?= datetime_micros b - ob * 60000000)%Z
  | _, _ => None
  end.

(** [a == b]: numbers by value, strings, lists and dictionaries by content,
    date/time values as above; values of different kinds are not equal. *)
Fixpoint py_eq (a b : value) : bool :=
  match a, b with
  | VNone, VNone => true
  | VStr s, VStr t => String.eqb s t
  | VDatetime d, VDatetime e =>
      match datetime_compare d e with
      | Some Eq => true
      | _ => false
      end
  | VList l, VList m =>
      (fix go (l m : list value) : bool :=
         match l, m with
         | [], [] => true
         | x :: l', y :: m' => py_eq x y && go l' m'
         | _, _ => false
         end) l m
  | VDict d, VDict e =>
      (size d =? size e)%nat
      && map_fold (fun k x acc =>
                     match e !! k with
                     | Some y => py_eq x y
                     | None => false
                     end && acc) true d
  | _, _ =>
      match num a, num b with
      | Some x, Some y => Qeq_bool x y
      | _, _ => false
      end
  end.

(** The order Python defines between two values, if any: numbers by value,
    strings by code point, date/time values as above, lists by the first
    pair of elements that are not equal, or by length when there is none. *)
Fixpoint py_compare (a b : value) : option comparison :=
  match a, b with
  | VStr s, VStr t => Some (String.compare s t)
  | VDatetime d, VDatetime e => datetime_compare d e
  | VList l, VList m =>
      (fix go (l m : list value) : option comparison :=
         match l, m with
         | [], [] => Some Eq
         | [], _ :: _ => Some Lt
         | _ :: _, [] => Some Gt
         | x :: l', y :: m' => if py_eq x y then go l' m' else py_compare x y
         end) l m
  | _, _ =>
      match num a, num b with
      | Some x, Some y => Some (x ?= y)%Q
      | _, _ => None
      end
  end.

(** [a > b]; [TypeError] where Python defines no order between the two. *)
Definition py_gt (a b : value) : result bool :=
  match py_compare a b with
  | Some Gt => Ok true
  | Some _ => Ok false
  | None => Raise TypeError
  end.

(** Truth value of an object, as [if v:] and [not v] test it. *)
Definition truthy (v : value) : bool :=
  match v with
  | VNone => false
  | VBool b => b
  | VInt z => negb (z =? 0)%Z
  | VFloat q => negb (Qeq_bool q 0)
  | VStr s => negb (String.eqb s "")
  | VDatetime _ => true
  | VList l => match l with [] => false | _ => true end
  | VDict d => negb (bool_decide (d = ∅))
  end.

(** [v[key]] for a string key. *)
Definition getitem (v : value) (key : string) : result value :=
  match v with
  | VDict d =>
      match d !! key with
      | Some x => Ok x
      | None => Raise (KeyError key)
      end
  | _ => Raise TypeError
  end.

(** [d.get(key, default)]. *)
Definition dict_get (d : dict) (key : string) (dflt : value) : value :=
  default dflt (d !! key).

(** [v.pop(key)]: the value removed and the dictionary left behind. *)
Definition pop (v : value) (key : string) : result (value * dict) :=
  match v with
  | VDict d =>
      match d !! key with
      | Some x => Ok (x, delete key d)
      | None => Raise (KeyError key)
      end
  | VList _ => Raise TypeError
  | _ => Raise AttributeError
  end.

(** The elements a [for] loop visits. *)
Definition iter (v : value) : result (list value) :=
  match v with
  | VList l => Ok l
  | VDict d => Ok (VStr <$> (map_to_list d).*1)
  | VStr s => Ok ((fun c => VStr (String c "")) <$> String.list_ascii_of_string s)
  | _ => Raise TypeError
  end.

(** [len(v)]. *)
Definition len (v : value) : result nat :=
  match v with
  | VList l => Ok (length l)
  | VDict d => Ok (size d)
  | VStr s => Ok (String.length s)
  | _ => Raise TypeError
  end.

(** [s.endswith(suffix)]. *)
Definition endswith (s suffix : string) : bool :=
  let n := String.length s in
  let m := String.length suffix in
  if (m <=? n)%nat then String.eqb (String.substring (n - m) m s) suffix else false.

(** [s.replace(old, new)] for one-character [old] and [new]. *)
Fixpoint replace (old new : ascii) (s : string) : string :=
  match s with
  | EmptyString => EmptyString
  | String c s' => String (if Ascii.eqb c old then new else c) (replace old new s')
  end.

(** Decimal rendering of [n] on exactly [width] digits, zero-padded. *)
Fixpoint zfill (width n : nat) : string :=
  match width with
  | O => ""
  | S w => zfill w (n / 10) +:+ String (ascii_of_nat (48 + n mod 10)) ""
  end.

(** [datetime.isoformat()]: [YYYY-MM-DDTHH:MM:SS], then [.ffffff] when the
    microsecond is not zero, then [+HH:MM] or [-HH:MM] for an aware value. *)
Definition isoformat (d : datetime) : string :=
  zfill 4 (year d) +:+ "-" +:+ zfill 2 (month d) +:+ "-" +:+ zfill 2 (day d)
  +:+ "T" +:+ zfill 2 (hour d) +:+ ":" +:+ zfill 2 (minute d) +:+ ":" +:+ zfill 2 (second d)
  +:+ (if (microsecond d =? 0)%nat then "" else "." +:+ zfill 6 (microsecond d))
  +:+ match utcoffset d with
     | None => ""
     | Some off =>
         let a := Z.to_nat (Z.abs off) in
         (if (off <? 0)%Z then "-" else "+") +:+ zfill 2 (a / 60) +:+ ":" +:+ zfill 2 (a mod 60)
     end.

(** Whether [json.dumps] encodes the value: a date/time value is not
    encodable, at whatever depth it sits. *)
Fixpoint encodable (v : value) : bool :=
  match v with
  | VDatetime _ => false
  | VList l => forallb encodable l
  | VDict d => map_fold (fun _ x acc => encodable x && acc) true d
  | _ => true
  end.

(** The upper-case form of an ASCII letter. *)
Definition upper (c : ascii) : ascii :=
  let n := nat_of_ascii c in
  if ((97 <=? n) && (n <=? 122))%nat then ascii_of_nat (n - 32) else c.

End Py.
Import Py.

(** ** Computations that hold a state and may raise *)

Definition State (S A : Type) : Type := S → result A * S.

#[global] Instance State_ret {S} : MRet (State S) := fun A a s => (Ok a, s).
#[global] Instance State_bind {S} : MBind (State S) := fun A B f m s =>
  match m s with
  | (Ok a, s') => f a s'
  | (Raise e, s') => (Raise e, s')
  end.

Definition raise {S A} (e : exn) : State S A := fun s => (Raise e, s).

(** A computation that needs no state, run inside one that has it. *)
Definition lift {S A} (r : result A) : State S A := fun s => (r, s).

(** ** The Weaviate client library, as far as the adapter drives it *)

Module Weaviate.

(** [_capitalize_first_letter(string)]: [string[0].capitalize() + string[1:]],
    which raises [IndexError] on the empty string. *)
Definition capitalize_first_letter (s : string) : result string :=
  match s with
  | EmptyString => Raise IndexError
  | String c s' => Ok (String (upper c) s')
  end.

(** A GraphQL [Get] query under construction: what each [with_*] call
    recorded. *)
Record query := Query {
  q_class_name : string;
  q_near_vector : option dict;
  q_where : option value;
  q_limit : option value;
  q_additional : list value;
  q_bm25 : option (string * list string)
}.

Definition get (class_name : string) : query :=
  Query class_name None None None [] None.

(** What a [with_*] call records once it has accepted its argument. *)
Definition record_near_vector (content : dict) (q : query) : query :=
  Query (q_class_name q) (Some content) (q_where q) (q_limit q) (q_additional q) (q_bm25 q).
Definition record_where (content : value) (q : query) : query :=
  Query (q_class_name q) (q_near_vector q) (Some content) (q_limit q) (q_additional q) (q_bm25 q).
Definition record_limit (limit : value) (q : query) : query :=
  Query (q_class_name q) (q_near_vector q) (q_where q) (Some limit) (q_additional q) (q_bm25 q).
Definition record_additional (properties : value) (q : query) : query :=
  Query (q_class_name q) (q_near_vector q) (q_where q) (q_limit q)
        (q_additional q ++ [properties]) (q_bm25 q).
Definition record_bm25 (text : string) (properties : list string) (q : query) : query :=
  Query (q_class_name q) (q_near_vector q) (q_where q) (q_limit q) (q_additional q)
        (Some (text, properties)).

(** [with_near_vector(content)]: the content must hold a [vector]. *)
Definition with_near_vector (content : dict) (q : query) : result query :=
  match content !! "vector" with
  | Some _ => Ok (record_near_vector content q)
  | None => Raise (KeyError "vector")
  end.

(** The names under which a filter carries its value. *)
Definition value_types : list string :=
  ["valueString"; "valueText"; "valueInt"; "valueNumber"; "valueDate";
   "valueBoolean"; "valueGeoRange"].

(** The operators a filter may use. *)
Definition WHERE_OPERATORS : list string :=
  ["And"; "Or"; "Equal"; "NotEqual"; "GreaterThan"; "GreaterThanEqual";
   "LessThan"; "LessThanEqual"; "Like"; "WithinGeoRange"; "IsNull";
   "ContainsAny"; "ContainsAll"].

Definition allowed_operator (d : dict) : bool :=
  match d !! "operator" with
  | Some (VStr op) => existsb (String.eqb op) WHERE_OPERATORS
  | _ => false
  end.

(** [with_where(content)]: the filter must be a dictionary ([TypeError]
    otherwise); one with a [path] needs an allowed [operator] and a value,
    one without a [path] needs [operands] and an allowed [operator]
    ([ValueError] otherwise). The operands of a compound filter are not
    looked into. *)
Definition with_where (content : value) (q : query) : result query :=
  match content with
  | VDict d =>
      match d !! "path", d !! "operands" with
      | Some _, _ =>
          match d !! "operator" with
          | None => Raise (ValueError "Filter is missing required field `operator`." [content])
          | Some operator =>
              if negb (allowed_operator d)
              then Raise (ValueError "Operator is not allowed: " [operator])
              else if existsb (fun t => bool_decide (is_Some (d !! t))) value_types
              then Ok (record_where content q)
              else Raise (ValueError "'value<TYPE>' field is either missing or incorrect: " [content])
          end
      | None, Some _ =>
          match d !! "operator" with
          | None => Raise (ValueError "Filter is missing required field `operator`." [content])
          | Some operator =>
              if negb (allowed_operator d)
              then Raise (ValueError "Operator is not allowed: " [operator])
              else Ok (record_where content q)
          end
      | None, None =>
          Raise (ValueError "Filter is missing required fields `path` or `operands`." [content])
      end
  | _ => Raise TypeError
  end.

(** [with_limit(limit)]: the test [limit < 1] raises [TypeError] for what is
    not a number and the call raises [ValueError] for a number below 1. *)
Definition with_limit (limit : value) (q : query) : result query :=
  match num limit with
  | Some n =>
      if Qgtb 1 n
      then Raise (ValueError "limit cannot be non-positive (limit >=1)." [])
      else Ok (record_limit limit q)
  | None => Raise TypeError
  end.

Definition is_str (v : value) : bool :=
  match v with
  | VStr _ => true
  | _ => false
  end.

(** [with_additional(properties)]: a string, a list of strings, or a
    dictionary whose values are strings or non-empty lists of strings. *)
Definition with_additional (properties : value) (q : query) : result query :=
  match properties with
  | VStr _ => Ok (record_additional properties q)
  | VList l =>
      if forallb is_str l then Ok (record_additional properties q) else Raise TypeError
  | VDict d =>
      map_fold (fun _ values acc =>
                  match acc with
                  | Raise e => Raise e
                  | Ok q' =>
                      match values with
                      | VStr _ => Ok q'
                      | VList [] =>
                          Raise (ValueError "additional properties cannot be an empty list" [])
                      | VList l => if forallb is_str l then Ok q' else Raise TypeError
                      | _ => Raise TypeError
                      end
                  end)
               (Ok (record_additional properties q)) d
  | _ => Raise TypeError
  end.

(** [with_bm25(query, properties)]. *)
Definition with_bm25 (text : string) (properties : list string) (q : query) : result query :=
  Ok (record_bm25 text properties q).

(** An object handed to [batch.add_data_object]. *)
Record data_object := DataObject {
  o_data_object : dict;
  o_class_name : string;
  o_uuid : string;
  o_vector : option (list Q)
}.

(** The client and the backend behind it: the schema classes and the objects
    the backend stores, the objects added to the current batch and not yet
    sent, the batch configuration, and the queries executed so far (oldest
    first). *)
Record client := Client {
  classes : list dict;
  objects : list data_object;
  batch : list data_object;
  configured_size : Z;
  configured_dynamic : bool;
  configured_retries : Z;
  executed : list query
}.

Abbreviation M := (State client).

Definition set_classes (cs : list dict) (c : client) : client :=
  Client cs (objects c) (batch c) (configured_size c) (configured_dynamic c) (configured_retries c) (executed c).
Definition set_batch (os b : list data_object) (c : client) : client :=
  Client (classes c) os b (configured_size c) (configured_dynamic c) (configured_retries c) (executed c).
Definition set_executed (qs : list query) (c : client) : client :=
  Client (classes c) (objects c) (batch c) (configured_size c) (configured_dynamic c) (configured_retries c) qs.

(** [client.batch.configure(batch_size, dynamic, timeout_retries)]: the
    size must be positive and the retries must not be negative. *)
Definition batch_configure (size : Z) (dyn : bool) (retries : Z) (c : client)
  : result client :=
  if (size <=? 0)%Z
  then Raise (ValueError "'batch_size' must be positive, i.e. greater that zero (>0)." [])
  else if (retries <? 0)%Z
  then Raise (ValueError "'timeout_retries' must be positive, i.e. greater or equal that zero (>=0)." [])
  else Ok (Client (classes c) (objects c) (batch c) size dyn retries (executed c)).

(** A client that has just connected: nothing batched, nothing executed. *)
Definition connected (cs : list dict) (os : list data_object) : client :=
  Client cs os [] 0 false 0 [].

(** *** Schema *)

Definition class_name_of (schema : dict) : option string :=
  match schema !! "class" with
  | Some (VStr n) => Some n
  | _ => None
  end.

Definition property_names (schema : dict) : list string :=
  match schema !! "properties" with
  | Some (VList ps) =>
      omap (fun p => match p with
                     | VDict d => match d !! "name" with
                                  | Some (VStr n) => Some n
                                  | _ => None
                                  end
                     | _ => None
                     end) ps
  | _ => []
  end.

(** Whether a loaded class covers [schema]: the name of [schema], with its
    first letter capitalized, is the name of the loaded class, and every
    property of [schema] is a property of the loaded class. *)
Definition covers (schema loaded : dict) : bool :=
  match class_name_of schema, class_name_of loaded with
  | Some n, Some n' =>
      match capitalize_first_letter n with
      | Ok m => String.eqb m n'
                && forallb (fun p => existsb (String.eqb p) (property_names loaded))
                           (property_names schema)
      | Raise _ => false
      end
  | _, _ => false
  end.

(** The loop of [_compare_class_sets] for the schema of one class: the name
    is capitalized anew for each loaded class it is compared with. *)
Fixpoint compare_class_sets (schema : dict) (loaded : list dict) : result bool :=
  match loaded with
  | [] => Ok false
  | set_class :: rest =>
      match class_name_of schema with
      | Some n =>
          capitalize_first_letter n;;
          if covers schema set_class then Ok true else compare_class_sets schema rest
      | None => compare_class_sets schema rest
      end
  end.

(** [client.schema.contains(schema)] for the schema of one class. *)
Definition schema_contains (schema : dict) : M bool := fun c =>
  (compare_class_sets schema (classes c), c).

(** Whether the backend holds a class of that name, once its first letter is
    capitalized. *)
Definition has_class (n : option string) (cs : list dict) : bool :=
  existsb (fun loaded =>
             match n ≫= (fun n => match capitalize_first_letter n with
                                  | Ok m => Some m
                                  | Raise _ => None
                                  end) with
             | Some m => bool_decide (class_name_of loaded = Some m)
             | None => false
             end) cs.

(** [client.schema.create_class(schema)]: the class is sent, and stored,
    under its capitalized name; the backend refuses a class whose name it
    already holds. *)
Definition schema_create_class (schema : dict) : M unit := fun c =>
  match class_name_of schema with
  | None => (Raise (KeyError "class"), c)
  | Some n =>
      match capitalize_first_letter n with
      | Raise e => (Raise e, c)
      | Ok m =>
          if has_class (Some n) (classes c)
          then (Raise UnexpectedStatusCodeException, c)
          else (Ok (), set_classes (classes c ++ [<["class" := VStr m]> schema]) c)
      end
  end.

(** *** Batching *)

(** Whether the request that carries the object can be encoded as JSON. *)
Definition object_encodable (o : data_object) : bool :=
  encodable (VDict (o_data_object o)).

Section Batch.
(** Whether auto-batching sends the batch now, given the configured size and
    the objects waiting; with [dynamic=True] the client retunes the size from
    the import speed it observes, so the decision is left open. *)
Variable batch_ready : Z → list data_object → bool.
(** Whether the client takes the string for a UUID. *)
Variable valid_uuid : string → bool.

(** Sending the batch: the objects waiting are encoded in one request; when
    one of them cannot be encoded the request raises [TypeError], nothing is
    stored, and the objects that were waiting are gone. *)
Definition flush : M unit := fun c =>
  if forallb object_encodable (batch c)
  then (Ok (), set_batch (objects c ++ batch c) [] c)
  else (Raise TypeError, set_batch (objects c) [] c).

(** [batch.add_data_object(...)]: the uuid is checked, the object joins the
    batch, and the batch is sent when auto-batching says so. *)
Definition add_data_object (o : data_object) : M unit := fun c =>
  if valid_uuid (o_uuid o)
  then
    let c' := set_batch (objects c) (batch c ++ [o]) c in
    if batch_ready (configured_size c') (batch c') then flush c' else (Ok (), c')
  else (Raise (ValueError "Not valid 'uuid' or 'uuid' can not be extracted from value" []), c).

(** [with client.batch as batch: body]: the batch is flushed on the way out,
    whether [body] returned or raised; what the flush raises replaces the
    outcome of [body]. *)
Definition with_batch {A} (body : M A) : M A := fun c =>
  let '(r, c') := body c in
  match flush c' with
  | (Ok _, c'') => (r, c'')
  | (Raise e, c'') => (Raise e, c'')
  end.
End Batch.

(** *** Queries *)

(** Whether the additional properties recorded name at least one property:
    an empty list, or an empty dictionary, names none. *)
Definition selects (q : query) : bool :=
  existsb (fun properties =>
             match properties with
             | VStr _ => true
             | VList (_ :: _) => true
             | VDict d => negb (size d =? 0)%nat
             | _ => false
             end) (q_additional q).

Section Query.
(** The response the backend gives to a query. *)
Variable respond : query → dict.

(** [query.do()]: the client refuses to build a query that selects no
    property and no additional property ([get] is called with the class name
    alone, so no property is ever selected); otherwise one round trip. *)
Definition do (q : query) : M dict := fun c =>
  if selects q
  then (Ok (respond q), set_executed (executed c ++ [q]) c)
  else (Raise AttributeError, c).
End Query.

(** *** Connecting *)

Section Connect.
(** What is behind a URL: nothing ([None]), or a backend with the classes
    and objects it stores. *)
Variable backend : string → option (list dict * list data_object).

(** [weaviate.Client(url=..., auth_client_secret=AuthApiKey(api_key))]: the
    key is put into the request headers first, which raises [TypeError] when
    there is none; then one connection attempt is made, recorded in the list
    of URLs contacted so far. *)
Definition Client_new (url : string) (api_key : option string)
  : State (list string) client := fun contacted =>
  match api_key with
  | None => (Raise TypeError, contacted)
  | Some _ =>
      match backend url with
      | Some (cs, os) => (Ok (connected cs os), (contacted ++ [url])%list)
      | None => (Raise RequestsConnectionError, (contacted ++ [url])%list)
      end
  end.
End Connect.

End Weaviate.
Import Weaviate.
(** ** Collaborators declared outside the file *)

(** Modelled from the spec: the Document Record built by
    [core/rag/models/document.py], [{content: string, metadata:
    mapping[string→any]}] with content never null; building one from a
    content that is not a string is a validation failure. *)
Record Document := mkDocument {
  page_content : string;
  metadata : dict
}.

Definition Document_new (content : value) (meta : dict) : result Document :=
  match content with
  | VStr s => Ok (mkDocument s meta)
  | _ => Raise (ValidationError [])
  end.

(** [models.dataset.Dataset]: the two attributes the adapter reads;
    [index_struct_dict] is the stored index structure or [None]. *)
Module Dataset.
Record t := mk {
  id : string;
  index_struct_dict : value
}.
End Dataset.

(** ** Configuration *)

Record WeaviateConfig := mkWeaviateConfig {
  endpoint : string;
  api_key : option string;
  batch_size : Z
}.

Definition validate_config (values : WeaviateConfig) : result WeaviateConfig :=
  if negb (truthy (VStr (endpoint values)))
  then Raise (ValueError "config WEAVIATE_ENDPOINT is required" [])
  else Ok values.

(** [WeaviateConfig(endpoint=..., api_key=..., batch_size=...)]: the fields
    are set ([batch_size] to 100 when not given), the root validator runs, and
    what it raises is reported as a validation error. *)
Definition WeaviateConfig_new (endpoint : string) (api_key : option string)
    (batch_size : option Z) : result WeaviateConfig :=
  match validate_config (mkWeaviateConfig endpoint api_key (default 100%Z batch_size)) with
  | Ok values => Ok values
  | Raise e => Raise (ValidationError [e])
  end.

(** ** The adapter *)

Record WeaviateVector := mkWeaviateVector {
  _collection_name : string;
  _attributes : list string
}.

Definition index {A} (l : list A) (i : nat) : result A :=
  match l !! i with
  | Some x => Ok x
  | None => Raise IndexError
  end.

Section Adapter.

(** [Field.TEXT_KEY.value], the reserved name of the text field. *)
Variable TEXT_KEY : string.
(** The world the client talks to: what answers at a URL, when auto-batching
    sends the batch, which strings the client takes for a UUID, and what the
    backend responds to a query. *)
Variable backend : string → option (list dict * list data_object).
Variable batch_ready : Z → list data_object → bool.
Variable valid_uuid : string → bool.
Variable respond : query → dict.
(** The identity assigner: the identifier derived from a [doc_id], and the
    random identifier drawn for the document at a given position. *)
Variable uuid_of_doc_id : value → string.
Variable random_uuid : nat → string.

Definition _init_client (config : WeaviateConfig) : State (list string) client :=
  fun contacted =>
  let auth_config := api_key config in
  match Client_new backend (endpoint config) auth_config contacted with
  | (Ok client, contacted') =>
      (batch_configure (batch_size config) true 3 client, contacted')
  | (Raise RequestsConnectionError, contacted') =>
      (Raise (ConnectionError "Vector database connection error"), contacted')
  | (Raise e, contacted') => (Raise e, contacted')
  end.

Definition __init__ (collection_name : string) (config : WeaviateConfig)
    (attributes : list string) : State (list string) (WeaviateVector * client) :=
  client ← _init_client config;
  mret (mkWeaviateVector collection_name attributes, client).

Definition get_type : string := "weaviate".

Definition get_collection_name (dataset : Dataset.t) : result string :=
  if truthy (Dataset.index_struct_dict dataset) then
    vector_store ← getitem (Dataset.index_struct_dict dataset) "vector_store";
    class_prefix ← getitem vector_store "class_prefix";
    match class_prefix with
    | VStr class_prefix =>
        Ok (if negb (endswith class_prefix "_Node")
            then class_prefix +:+ "_Node"
            else class_prefix)
    | _ => Raise AttributeError
    end
  else
    Ok ("Vector_index_" +:+ replace "-" "_" (Dataset.id dataset) +:+ "_Node").

Definition to_index_struct (self : WeaviateVector) : dict :=
  {[ "type" := VStr get_type;
     "vector_store" := VDict {[ "class_prefix" := VStr (_collection_name self) ]} ]}.

Definition _default_schema (index_name : string) : dict :=
  {[ "class" := VStr index_name;
     "properties" :=
       VList [ VDict {[ "name" := VStr "text";
                        "dataType" := VList [VStr "text"] ]} ] ]}.

Definition _json_serializable (v : value) : value :=
  match v with
  | VDatetime d => VStr (isoformat d)
  | _ => v
  end.

(** Modelled from the spec: [_get_uuids] of [BaseVector], the identity
    assigner of section 4.2, applied to each record before it enters the
    batch: a document whose metadata carries a [doc_id] gets the identifier
    derived from it, any other document a fresh random one. *)
Definition _get_uuids (documents : list Document) : list string :=
  imap (fun i d =>
          match metadata d !! "doc_id" with
          | Some doc_id => uuid_of_doc_id doc_id
          | None => random_uuid i
          end) documents.

(** The properties sent for one document: the text under [TEXT_KEY], then one
    assignment per metadata item. *)
Definition data_properties_of (text : string) (meta : dict) : dict :=
  foldl (fun data_properties '(key, val) =>
           <[key := _json_serializable val]> data_properties)
        {[ TEXT_KEY := VStr text ]} (map_to_list meta).

(** The body of [for i, text in enumerate(texts)], from index [i] on; [ids]
    is the list built so far. [metadatas] is a list, so the test
    [metadatas is not None] always passes. An empty [embeddings] stands for
    absent vectors. *)
Fixpoint add_texts_loop (self : WeaviateVector) (uuids : list string)
    (metadatas : list dict) (embeddings : list (list Q))
    (i : nat) (texts : list string) (ids : list string) : M (list string) :=
  match texts with
  | [] => mret ids
  | text :: texts' =>
      meta ← lift (index metadatas i);
      let data_properties := data_properties_of text meta in
      uuid ← lift (index uuids i);
      vector ← lift (match embeddings with
                     | [] => Ok None
                     | _ => Some <$> index embeddings i
                     end);
      add_data_object batch_ready valid_uuid
        (DataObject data_properties (_collection_name self) uuid vector);;
      uuid' ← lift (index uuids i);
      add_texts_loop self uuids metadatas embeddings (S i) texts' (ids ++ [uuid'])
  end.

Definition add_texts (self : WeaviateVector) (documents : list Document)
    (embeddings : list (list Q)) : M (list string) :=
  let uuids := _get_uuids documents in
  let texts := page_content <$> documents in
  let metadatas := metadata <$> documents in
  with_batch (add_texts_loop self uuids metadatas embeddings 0 texts []).

Definition create (self : WeaviateVector) (texts : list Document)
    (embeddings : list (list Q)) : M unit :=
  let schema := _default_schema (_collection_name self) in
  present ← schema_contains schema;
  (if negb present then schema_create_class schema else mret ());;
  add_texts self texts embeddings;;
  mret ().

(** [result["data"]["Get"][collection_name]]. *)
Definition data_get (result : dict) (collection_name : string) : Py.result value :=
  data ← getitem (VDict result) "data";
  got ← getitem data "Get";
  getitem got collection_name.

(** The query [text_exists] builds. *)
Definition text_exists_query (self : WeaviateVector) (id : string) : query :=
  record_limit (VInt 1)
    (record_where (VDict {[ "path" := VList [VStr "doc_id"];
                            "operator" := VStr "Equal";
                            "valueText" := VStr id ]})
       (record_additional (VList [VStr "id"]) (get (_collection_name self)))).

(** The chain of [with_*] calls of [text_exists]. *)
Definition text_exists_build (self : WeaviateVector) (id : string) : result query :=
  q ← with_additional (VList [VStr "id"]) (get (_collection_name self));
  q ← with_where (VDict {[ "path" := VList [VStr "doc_id"];
                           "operator" := VStr "Equal";
                           "valueText" := VStr id ]}) q;
  with_limit (VInt 1) q.

Definition text_exists (self : WeaviateVector) (id : string) : M bool :=
  let collection_name := _collection_name self in
  q ← lift (text_exists_build self id);
  result ← do respond q;
  match result !! "errors" with
  | Some errors => raise (ValueError "Error during query: " [errors])
  | None =>
      lift (entries ← data_get result collection_name;
            n ← len entries;
            if ((n : nat) =? 0)%nat then Ok false else Ok true)
  end.

(** First loop of [search_by_vector]: one document and its score per row;
    the row, minus its text, is the document's metadata. *)
Definition doc_and_score (res : value) : result (Document * value) :=
  '(text, res') ← pop res TEXT_KEY;
  additional ← getitem (VDict res') "_additional";
  score ← getitem additional "distance";
  doc ← Document_new text res';
  Ok (doc, score).

Fixpoint docs_and_scores_loop (rows : list value) (docs_and_scores : list (Document * value))
  : result (list (Document * value)) :=
  match rows with
  | [] => Ok docs_and_scores
  | res :: rows' =>
      ds ← doc_and_score res;
      docs_and_scores_loop rows' (docs_and_scores ++ [ds])
  end.

(** Second loop of [search_by_vector]: the score threshold. *)
Fixpoint threshold_loop (kwargs : dict) (docs_and_scores : list (Document * value))
    (docs : list Document) : result (list Document) :=
  match docs_and_scores with
  | [] => Ok docs
  | (doc, score) :: rest =>
      let score_threshold := dict_get kwargs "score_threshold" (VFloat 0) in
      above ← py_gt score score_threshold;
      if (above : bool)
      then threshold_loop kwargs rest
             (docs ++ [mkDocument (page_content doc) (<["score" := score]> (metadata doc))])
      else threshold_loop kwargs rest docs
  end.

(** The query [search_by_vector] builds. *)
Definition search_by_vector_query (self : WeaviateVector) (query_vector : list Q)
    (kwargs : dict) : query :=
  let query_obj := get (_collection_name self) in
  let vector : dict := {[ "vector" := VList (VFloat <$> query_vector) ]} in
  record_additional (VList [VStr "vector"; VStr "distance"])
    (record_limit (dict_get kwargs "top_k" (VInt 4))
       (record_where (dict_get kwargs "where_filter" VNone)
          (record_near_vector vector query_obj))).

(** The chain of [with_*] calls of [search_by_vector]. *)
Definition search_by_vector_build (self : WeaviateVector) (query_vector : list Q)
    (kwargs : dict) : result query :=
  let query_obj := get (_collection_name self) in
  let vector : dict := {[ "vector" := VList (VFloat <$> query_vector) ]} in
  q ← with_near_vector vector query_obj;
  q ← with_where (dict_get kwargs "where_filter" VNone) q;
  q ← with_limit (dict_get kwargs "top_k" (VInt 4)) q;
  with_additional (VList [VStr "vector"; VStr "distance"]) q.

Definition search_by_vector (self : WeaviateVector) (query_vector : list Q)
    (kwargs : dict) : M (list Document) :=
  let collection_name := _collection_name self in
  q ← lift (search_by_vector_build self query_vector kwargs);
  result ← do respond q;
  match result !! "errors" with
  | Some errors => raise (ValueError "Error during query: " [errors])
  | None =>
      lift (rows ← data_get result collection_name;
            rows ← iter rows;
            docs_and_scores ← docs_and_scores_loop rows [];
            threshold_loop kwargs docs_and_scores [])
  end.

(** The loop of [search_by_full_text]. *)
Fixpoint full_text_loop (rows : list value) (docs : list Document)
  : result (list Document) :=
  match rows with
  | [] => Ok docs
  | res :: rows' =>
      '(text, res') ← pop res TEXT_KEY;
      doc ← Document_new text res';
      full_text_loop rows' (docs ++ [doc])
  end.

(** The dictionary [content] that [search_by_full_text] fills in. *)
Definition full_text_content (query : string) (kwargs : dict) : dict :=
  let content : dict := {[ "concepts" := VList [VStr query] ]} in
  if truthy (dict_get kwargs "search_distance" VNone)
  then <["certainty" := dict_get kwargs "search_distance" VNone]> content
  else content.

(** The query [search_by_full_text] builds. *)
Definition search_by_full_text_query (self : WeaviateVector) (query : string)
    (kwargs : dict) : Weaviate.query :=
  let content := full_text_content query kwargs in
  let query_obj := get (_collection_name self) in
  let query_obj :=
    if truthy (dict_get kwargs "where_filter" VNone)
    then record_where (dict_get kwargs "where_filter" VNone) query_obj
    else query_obj in
  let query_obj :=
    if truthy (dict_get kwargs "additional" VNone)
    then record_additional (dict_get kwargs "additional" VNone) query_obj
    else query_obj in
  let properties := ["text"] in
  record_limit (dict_get kwargs "top_k" (VInt 2)) (record_bm25 query properties query_obj).

(** The chain of [with_*] calls of [search_by_full_text]. *)
Definition search_by_full_text_build (self : WeaviateVector) (query : string)
    (kwargs : dict) : result Weaviate.query :=
  let content := full_text_content query kwargs in
  let query_obj := get (_collection_name self) in
  query_obj ← (if truthy (dict_get kwargs "where_filter" VNone)
               then with_where (dict_get kwargs "where_filter" VNone) query_obj
               else Ok query_obj);
  query_obj ← (if truthy (dict_get kwargs "additional" VNone)
               then with_additional (dict_get kwargs "additional" VNone) query_obj
               else Ok query_obj);
  let properties := ["text"] in
  q ← with_bm25 query properties query_obj;
  with_limit (dict_get kwargs "top_k" (VInt 2)) q.

Definition search_by_full_text (self : WeaviateVector) (query : string)
    (kwargs : dict) : M (list Document) :=
  let collection_name := _collection_name self in
  q ← lift (search_by_full_text_build self query kwargs);
  result ← do respond q;
  match result !! "errors" with
  | Some errors => raise (ValueError "Error during query: " [errors])
  | None =>
      lift (rows ← data_get result collection_name;
            rows ← iter rows;
            full_text_loop rows [])
  end.

End Adapter.
(** ** Vocabulary of the statements *)

(** A row of a vector-search response, taken apart: the text, the rest of
    the row, and the distance found under [_additional]. *)
Definition is_vector_row (TEXT_KEY : string) (res : value)
    (parts : string * dict * value) : Prop :=
  ∃ d additional,
    res = VDict d
    ∧ d !! TEXT_KEY = Some (VStr parts.1.1)
    ∧ parts.1.2 = delete TEXT_KEY d
    ∧ d !! "_additional" = Some additional
    ∧ TEXT_KEY ≠ "_additional"
    ∧ getitem additional "distance" = Ok parts.2
    ∧ is_Some (num parts.2).

(** A row of a full-text response, taken apart: the text and the rest. *)
Definition is_text_row (TEXT_KEY : string) (res : value) (parts : string * dict) : Prop :=
  ∃ d, res = VDict d ∧ d !! TEXT_KEY = Some (VStr parts.1) ∧ parts.2 = delete TEXT_KEY d.

(** The number a score denotes. *)
Definition score_of (v : value) : Q := default 0%Q (num v).

(** The document [search_by_vector] returns for a retained row. *)
Definition scored (parts : string * dict * value) : Document :=
  mkDocument parts.1.1 (<["score" := parts.2]> parts.1.2).

(** The objects one call of [add_texts] hands to the batch, in input order. *)
Definition data_objects_of (TEXT_KEY : string) (uuid_of_doc_id : value → string)
    (random_uuid : nat → string) (self : WeaviateVector)
    (documents : list Document) (embeddings : list (list Q)) : list data_object :=
  imap (fun i d =>
          DataObject (data_properties_of TEXT_KEY (page_content d) (metadata d))
                     (_collection_name self)
                     (default "" (_get_uuids uuid_of_doc_id random_uuid documents !! i))
                     (embeddings !! i)) documents.

(** The precondition of section 4.2 on the vectors: absent, or one per
    document. *)
Definition vectors_match (documents : list Document) (embeddings : list (list Q)) : Prop :=
  embeddings = [] ∨ (length documents ≤ length embeddings)%nat.

(** A result that is not a [ValueError]. *)
Definition no_value_error {A} (r : result A) : Prop :=
  ∀ msg vs, r ≠ Raise (ValueError msg vs).

(** What the error check of a query does with a response: one query is
    executed; a response with an [errors] entry makes the call raise with
    that entry in the message; a response without one never does. *)
Definition surfaces_errors {A} (q : query) (response : dict) (c : client)
    (run : result A * client) : Prop :=
  run.2 = set_executed (executed c ++ [q]) c
  ∧ (∀ errors, response !! "errors" = Some errors →
       run.1 = Raise (ValueError "Error during query: " [errors]))
  ∧ (response !! "errors" = None → no_value_error run.1).


(** The single-predicate equality filter of the adapter, as [text_exists]
    builds it. *)
Definition equality_filter (field val : string) : dict :=
  {[ "path" := VList [VStr field];
     "operator" := VStr "Equal";
     "valueText" := VStr val ]}.

(** [top_k] is not supplied, or is a positive integer. *)
Definition top_k_given (kwargs : dict) : Prop :=
  kwargs !! "top_k" = None ∨ ∃ z, kwargs !! "top_k" = Some (VInt z) ∧ (1 ≤ z)%Z.

(** Keyword arguments with which the query of a vector search can be built:
    an equality filter as [where_filter], and [top_k] as above. *)
Definition vector_search_kwargs (kwargs : dict) : Prop :=
  (∃ field val, kwargs !! "where_filter" = Some (VDict (equality_filter field val)))
  ∧ top_k_given kwargs.

(** Keyword arguments with which the query of a full-text search can be
    built and executed: no [where_filter] or an equality filter, a non-empty
    list of names as [additional], and [top_k] as above. *)
Definition full_text_kwargs (kwargs : dict) : Prop :=
  (kwargs !! "where_filter" = None
   ∨ ∃ field val, kwargs !! "where_filter" = Some (VDict (equality_filter field val)))
  ∧ (∃ name names, kwargs !! "additional" = Some (VList (VStr <$> name :: names)))
  ∧ top_k_given kwargs.

(** Documents whose metadata, once normalized, can be encoded as JSON: no
    date/time value is left below the top level of a metadata value. *)
Definition encodable_documents (documents : list Document) : Prop :=
  Forall (fun d => map_Forall (fun _ v => encodable (_json_serializable v) = true)
                     (metadata d)) documents.

(** The identity assigner gives every document an id the client takes for a
    UUID. *)
Definition valid_uuids (valid_uuid : string → bool) (uuid_of_doc_id : value → string)
    (random_uuid : nat → string) (documents : list Document) : Prop :=
  Forall (fun u => valid_uuid u = true) (_get_uuids uuid_of_doc_id random_uuid documents).

(** Nothing that cannot be encoded is waiting in the batch. *)
Definition batch_encodable (c : client) : Prop :=
  forallb object_encodable (batch c) = true.

#[global] Instance Qlt_decision : RelDecision Qlt := fun a b =>
  match Qlt_le_dec a b with
  | left H => left H
  | right H => right (Qle_not_lt _ _ H)
  end.

(** ** Sample data *)

Module Sample.

Definition self : WeaviateVector := mkWeaviateVector "Vector_index_a_Node" [].
(** An adapter whose collection name starts with a lower-case letter. *)
Definition lower : WeaviateVector := mkWeaviateVector "vector_index_a_Node" [].
Definition fresh : client := connected [] [].

Definition row (text : string) (distance : Q) : value :=
  VDict {[ "text" := VStr text;
           "doc_id" := VStr text;
           "_additional" := VDict {[ "distance" := VFloat distance ]} ]}.
Definition parts (text : string) (distance : Q) : string * dict * value :=
  (text,
   {[ "doc_id" := VStr text;
      "_additional" := VDict {[ "distance" := VFloat distance ]} ]},
   VFloat distance).

Definition response (rows : list value) : dict :=
  {[ "data" := VDict {[ "Get" := VDict {[ "Vector_index_a_Node" := VList rows ]} ]} ]}.

(** Three rows at distances 0.1, 0.5 and 0.9. *)
Definition three_rows : list value :=
  [row "a" (1 # 10); row "b" (1 # 2); row "c" (9 # 10)].
Definition respond_three : query → dict := fun _ => response three_rows.

(** A response that carries an empty error list next to its data. *)
Definition respond_empty_errors : query → dict := fun _ =>
  <["errors" := VList []]> (response three_rows).

Definition no_backend : string → option (list dict * list data_object) := fun _ => None.
Definition empty_backend : string → option (list dict * list data_object) :=
  fun _ => Some ([], []).

Definition uuid_of_doc_id (v : value) : string :=
  match v with
  | VStr s => "6ba7b810-9dad-51d1-80b4-00c04fd430c" +:+ s
  | _ => "6ba7b810-9dad-51d1-80b4-00c04fd430c8"
  end.
Definition random_uuid (i : nat) : string :=
  "16fd2706-8baf-433b-82eb-8c7fada847" +:+ zfill 2 i.

(** A check that accepts the canonical form of a UUID: 36 characters,
    hyphens at 8, 13, 18 and 23, lower-case hexadecimal digits elsewhere. *)
Definition is_hex (c : ascii) : bool :=
  let n := nat_of_ascii c in
  (((48 <=? n) && (n <=? 57)) || ((97 <=? n) && (n <=? 102)))%nat.
Definition valid_uuid (s : string) : bool :=
  let cs := String.list_ascii_of_string s in
  (length cs =? 36)%nat
  && forallb (fun '(i, c) =>
                if bool_decide (i ∈ [8; 13; 18; 23])
                then Ascii.eqb c "-"
                else is_hex c)
             (imap pair cs).
Definition every_two (size : Z) (waiting : list data_object) : bool :=
  (2 <=? length waiting)%nat.

Definition new_year : datetime := Datetime 2024 1 2 3 4 5 0 None.
Definition documents : list Document :=
  [ mkDocument "alpha" {[ "doc_id" := VStr "1"; "created" := VDatetime new_year ]};
    mkDocument "beta" ∅;
    mkDocument "gamma" {[ "doc_id" := VStr "3" ]} ].
(** A document whose metadata uses the name of the text field. *)
Definition clashing : Document := mkDocument "alpha" {[ "text" := VStr "omega" ]}.
(** A document with a date/time value inside a list. *)
Definition nested_date : Document :=
  mkDocument "delta" {[ "seen" := VList [VDatetime new_year] ]}.

(** The three rows taken apart, for vector search and for full-text search. *)
Definition three_parts : list (string * dict * value) :=
  [parts "a" (1 # 10); parts "b" (1 # 2); parts "c" (9 # 10)].

(** A response that reports an error. *)
Definition backend_errors : value :=
  VList [VDict {[ "message" := VStr "no such class" ]}].
Definition respond_errors : query → dict := fun _ => {[ "errors" := backend_errors ]}.

(** Keyword arguments with a filter, and with a filter and a threshold of
    0.5. *)
Definition filtered : dict :=
  {[ "where_filter" := VDict (equality_filter "doc_id" "a") ]}.
Definition threshold_half : dict :=
  <["score_threshold" := VFloat (1 # 2)]> filtered.

(** Keyword arguments of a full-text search that asks for the id of each
    row. *)
Definition with_id : dict := {[ "additional" := VList [VStr "id"] ]}.
Definition with_id_near : dict := <["search_distance" := VFloat (1 # 10)]> with_id.
Definition with_id_far : dict := <["search_distance" := VFloat (7 # 10)]> with_id.

Definition config : WeaviateConfig :=
  mkWeaviateConfig "http://weaviate:8080" (Some "secret") 100.

(** A response whose second row has no text. *)
Definition rows_with_gap : list value :=
  [row "a" (1 # 10); VDict {[ "doc_id" := VStr "b" ]}; row "c" (9 # 10)].
Definition respond_gap : query → dict := fun _ => response rows_with_gap.

(** A response with neither [errors] nor [data]. *)
Definition respond_nothing : query → dict := fun _ => ∅.

(** Keyword arguments with a filter and [score_threshold=None]. *)
Definition threshold_none : dict := <["score_threshold" := VNone]> filtered.

(** One vector for three documents. *)
Definition one_vector : list (list Q) := [[1 # 2; 1 # 3]].

(** A backend that holds a class of the collection's name without the text
    property. *)
Definition conflicting : client :=
  connected [ {[ "class" := VStr "Vector_index_a_Node"; "properties" := VList [] ]} ] [].

(** A backend that holds a class of the collection's name with the text
    property and one more. *)
Definition holding : client :=
  connected
    [ {[ "class" := VStr "Vector_index_a_Node";
         "properties" :=
           VList [ VDict {[ "name" := VStr "text"; "dataType" := VList [VStr "text"] ]};
                   VDict {[ "name" := VStr "doc_id"; "dataType" := VList [VStr "text"] ]} ] ]} ]
    [].

(** The state after the sample documents are written, and a backend that
    answers every query with the properties it stores. *)
Definition written : client :=
  (add_texts "text" every_two valid_uuid uuid_of_doc_id random_uuid self documents []
     fresh).2.
Definition respond_stored : query → dict := fun _ =>
  response ((fun o => VDict (o_data_object o)) <$> objects written).

(** Stored index structures that are not as [get_collection_name] expects. *)
Definition structure_without_store : dict := {[ "type" := VStr "weaviate" ]}.
Definition structure_without_prefix : dict :=
  {[ "vector_store" := VDict {[ "class_prefix" := VNone ]} ]}.

End Sample.
(** ** Properties *)

(** *** Strings *)

Lemma append_cons (x : ascii) (a b : string) : String x a +:+ b = String x (a +:+ b).
Proof. reflexivity. Qed.

Lemma length_append (a b : string) :
  String.length (a +:+ b) = String.length a + String.length b.
Proof.
  induction a as [|x a IH]; [done|].
  rewrite append_cons. simpl. by rewrite IH.
Qed.

Lemma append_assoc (a b c : string) : (a +:+ b) +:+ c = a +:+ (b +:+ c).
Proof.
  induction a as [|x a IH]; [done|].
  rewrite !append_cons. by rewrite IH.
Qed.

Lemma substring_all (s : string) : String.substring 0 (String.length s) s = s.
Proof. induction s as [|x s IH]; simpl; [done | by rewrite IH]. Qed.

Lemma substring_append (a b : string) :
  String.substring (String.length a) (String.length b) (a +:+ b) = b.
Proof.
  induction a as [|x a IH]; [apply substring_all|].
  rewrite append_cons. simpl. apply IH.
Qed.

Lemma endswith_append (a suffix : string) : endswith (a +:+ suffix) suffix = true.
Proof.
  unfold endswith. rewrite length_append.
  destruct (Nat.leb_spec (String.length suffix) (String.length a + String.length suffix))
    as [_|Hlt]; [|lia].
  replace (String.length a + String.length suffix - String.length suffix)
    with (String.length a) by lia.
  rewrite substring_append. apply String.eqb_refl.
Qed.

(** Python's [x if c else y] on the marker rule: the result always carries
    the marker. *)
Lemma marker_rule_endswith (prefix : string) :
  endswith (if negb (endswith prefix "_Node") then prefix +:+ "_Node" else prefix) "_Node"
  = true.
Proof.
  destruct (endswith prefix "_Node") eqn:E; simpl; [done | apply endswith_append].
Qed.

(** *** Dictionaries *)

Lemma truthy_dict_lookup (d : dict) (k : string) (v : value) :
  d !! k = Some v → truthy (VDict d) = true.
Proof.
  intros H. simpl. rewrite bool_decide_eq_false_2; [done|].
  intros ->. by rewrite lookup_empty in H.
Qed.

Lemma dict_get_delete_ne (d : dict) (k k' : string) (dflt : value) :
  k ≠ k' → dict_get (delete k d) k' dflt = dict_get d k' dflt.
Proof. intros H. unfold dict_get. by rewrite lookup_delete_ne. Qed.

(** *** Collection names *)

Lemma get_collection_name_stored (dataset : Dataset.t) (vector_store : value)
    (prefix : string) :
  getitem (Dataset.index_struct_dict dataset) "vector_store" = Ok vector_store →
  getitem vector_store "class_prefix" = Ok (VStr prefix) →
  get_collection_name dataset
  = Ok (if endswith prefix "_Node" then prefix else prefix +:+ "_Node").
Proof.
  intros Hvs Hcp. unfold get_collection_name.
  destruct (Dataset.index_struct_dict dataset) as [| | | | | |?|d] eqn:Hd;
    simpl in Hvs; try discriminate.
  destruct (d !! "vector_store") as [vs|] eqn:Hl; [|discriminate].
  rewrite (truthy_dict_lookup d _ _ Hl).
  simpl. rewrite Hl. simpl. injection Hvs as ->.
  rewrite Hcp. simpl. by destruct (endswith prefix "_Node").
Qed.

Lemma get_collection_name_endswith (dataset : Dataset.t) (name : string) :
  get_collection_name dataset = Ok name → endswith name "_Node" = true.
Proof.
  unfold get_collection_name.
  destruct (truthy (Dataset.index_struct_dict dataset)).
  - destruct (getitem (Dataset.index_struct_dict dataset) "vector_store") as [vs|];
      simpl; [|discriminate].
    destruct (getitem vs "class_prefix") as [cp|]; simpl; [|discriminate].
    destruct cp; try discriminate.
    intros [= <-]. apply marker_rule_endswith.
  - intros [= <-]. rewrite <- !append_assoc. apply endswith_append.
Qed.

(** C2: the collection name is a function of the dataset's stored index
    structure and, when none is stored, of its id: without a stored structure
    the name is ["Vector_index_"], the id with hyphens turned into
    underscores, and ["_Node"]; with a stored class prefix the marker is
    appended only when the prefix does not end with it; two datasets that
    agree on what the derivation reads get the same name; and a derived name
    ends with the marker and, stored back as a class prefix, is derived again
    unchanged. *)
Theorem get_collection_name_deterministic_idempotent (dataset : Dataset.t) :
  (truthy (Dataset.index_struct_dict dataset) = false →
     get_collection_name dataset
     = Ok ("Vector_index_" +:+ replace "-" "_" (Dataset.id dataset) +:+ "_Node"))
  ∧ (∀ vector_store prefix,
       getitem (Dataset.index_struct_dict dataset) "vector_store" = Ok vector_store →
       getitem vector_store "class_prefix" = Ok (VStr prefix) →
       get_collection_name dataset
       = Ok (if endswith prefix "_Node" then prefix else prefix +:+ "_Node"))
  ∧ (∀ other,
       Dataset.index_struct_dict other = Dataset.index_struct_dict dataset →
       truthy (Dataset.index_struct_dict dataset) = true
       ∨ Dataset.id other = Dataset.id dataset →
       get_collection_name other = get_collection_name dataset)
  ∧ (∀ name,
       get_collection_name dataset = Ok name →
       endswith name "_Node" = true
       ∧ ∀ id attributes,
           get_collection_name
             (Dataset.mk id (VDict (to_index_struct (mkWeaviateVector name attributes))))
           = Ok name).
Proof.
  split; [|split; [|split]].
  - intros H. unfold get_collection_name. by rewrite H.
  - apply get_collection_name_stored.
  - intros other Hs Hid. unfold get_collection_name. rewrite Hs.
    destruct Hid as [-> | ->]; [done|].
    by destruct (truthy (Dataset.index_struct_dict dataset)).
  - intros name Hname.
    pose proof (get_collection_name_endswith _ _ Hname) as Hend.
    split; [done|]. intros id attributes.
    rewrite (get_collection_name_stored _
               (VDict {[ "class_prefix" := VStr name ]}) name); [| done | done].
    by rewrite Hend.
Qed.

(** *** Results that are not query failures *)

Lemma no_value_error_Ok {A} (a : A) : no_value_error (Ok a).
Proof. by intros ??. Qed.

Lemma no_value_error_bind {A B} (m : result A) (f : A → result B) :
  no_value_error m → (∀ a, no_value_error (f a)) → no_value_error (m ≫= f).
Proof.
  intros Hm Hf. destruct m as [a|e]; simpl; [apply Hf|].
  intros msg vs [= ->]. by eapply Hm.
Qed.

Lemma no_value_error_getitem (v : value) (k : string) : no_value_error (getitem v k).
Proof. destruct v; simpl; try done. by destruct (_ !! _). Qed.

Lemma no_value_error_pop (v : value) (k : string) : no_value_error (pop v k).
Proof. destruct v; simpl; try done. by destruct (_ !! _). Qed.

Lemma no_value_error_iter (v : value) : no_value_error (iter v).
Proof. by destruct v. Qed.

Lemma no_value_error_len (v : value) : no_value_error (len v).
Proof. by destruct v. Qed.

Lemma no_value_error_Document_new (v : value) (m : dict) :
  no_value_error (Document_new v m).
Proof. by destruct v. Qed.

Lemma no_value_error_py_gt (a b : value) : no_value_error (py_gt a b).
Proof. unfold py_gt. by destruct (py_compare a b) as [[]|]. Qed.

(** Between two numbers, [>] compares the values. *)
Lemma py_gt_num (a b : value) (x y : Q) :
  num a = Some x → num b = Some y → py_gt a b = Ok (Qgtb x y).
Proof.
  intros Ha Hb. unfold py_gt, Qgtb.
  assert (py_compare a b = Some (x ?= y)%Q) as ->.
  { destruct a; try discriminate; destruct b; try discriminate;
      simpl in *; congruence. }
  by destruct (x ?= y)%Q.
Qed.

(** Between a number and a value that is not one, [>] raises [TypeError]. *)
Lemma py_gt_num_other (a b : value) (x : Q) :
  num a = Some x → num b = None → py_gt a b = Raise TypeError.
Proof.
  intros Ha Hb. unfold py_gt.
  assert (py_compare a b = None) as ->; [|done].
  destruct a; try discriminate; destruct b; try discriminate; simpl in *; done.
Qed.

Lemma no_value_error_data_get (r : dict) (n : string) : no_value_error (data_get r n).
Proof.
  unfold data_get. apply no_value_error_bind; [apply no_value_error_getitem|].
  intros ?. apply no_value_error_bind; intros; apply no_value_error_getitem.
Qed.

Create HintDb no_value_error.
#[global] Hint Resolve no_value_error_Ok no_value_error_getitem no_value_error_pop
  no_value_error_iter no_value_error_len no_value_error_Document_new
  no_value_error_py_gt no_value_error_data_get : no_value_error.

Ltac no_value_error :=
  repeat first
    [ progress auto with no_value_error
    | apply no_value_error_bind; [|intros ?]
    | match goal with |- no_value_error (let '(_, _) := ?p in _) => destruct p end
    | match goal with |- no_value_error (if ?b then _ else _) => destruct b end ].

(** *** The searches and the existence check *)
Section Searches.
Variable TEXT_KEY : string.
Variable respond : query → dict.

Lemma Qgtb_lt (a b : Q) : Qgtb a b = true ↔ (b < a)%Q.
Proof.
  unfold Qgtb. rewrite Qlt_alt, <- (Qcompare_antisym a b).
  destruct (a ?= b)%Q; simpl; split; congruence.
Qed.

Lemma doc_and_score_row (res : value) (p : string * dict * value) :
  is_vector_row TEXT_KEY res p →
  doc_and_score TEXT_KEY res = Ok (mkDocument p.1.1 p.1.2, p.2).
Proof.
  intros (d & additional & -> & Htext & Hmeta & Hadd & Hne & Hdist & _).
  unfold doc_and_score. simpl. rewrite Htext. simpl.
  rewrite lookup_delete_ne, Hadd by done. simpl.
  rewrite Hdist. simpl. by rewrite Hmeta.
Qed.

Lemma docs_and_scores_loop_rows (rows : list value) (ps : list (string * dict * value))
    (acc : list (Document * value)) :
  Forall2 (is_vector_row TEXT_KEY) rows ps →
  docs_and_scores_loop TEXT_KEY rows acc
  = Ok (acc ++ ((fun p => (mkDocument p.1.1 p.1.2, p.2)) <$> ps)).
Proof.
  intros H. revert acc.
  induction H as [|res p rows ps Hrow _ IH]; intros acc; simpl.
  - by rewrite app_nil_r.
  - rewrite (doc_and_score_row _ _ Hrow). simpl.
    rewrite IH. by rewrite <- app_assoc.
Qed.

Lemma threshold_loop_filter (kwargs : dict) (th : Q) (ps : list (string * dict * value))
    (acc : list Document) :
  num (dict_get kwargs "score_threshold" (VFloat 0)) = Some th →
  Forall (fun p => is_Some (num p.2)) ps →
  threshold_loop kwargs ((fun p => (mkDocument p.1.1 p.1.2, p.2)) <$> ps) acc
  = Ok (acc ++ (scored <$> filter (fun p => (th < score_of p.2)%Q) ps)).
Proof.
  intros Hth H. revert acc.
  induction H as [|p ps [q Hq] _ IH]; intros acc; simpl.
  - by rewrite app_nil_r.
  - rewrite (py_gt_num _ _ q th) by done. simpl.
    destruct (Qgtb q th) eqn:E.
    + rewrite IH. rewrite filter_cons_True.
      * by rewrite fmap_cons, <- app_assoc.
      * unfold score_of. simpl. rewrite Hq. simpl. by apply Qgtb_lt.
    + rewrite IH. rewrite filter_cons_False; [done|].
      unfold score_of. simpl. rewrite Hq. simpl.
      intros Hlt%Qgtb_lt. congruence.
Qed.

Lemma full_text_loop_rows (rows : list value) (ps : list (string * dict))
    (acc : list Document) :
  Forall2 (is_text_row TEXT_KEY) rows ps →
  full_text_loop TEXT_KEY rows acc = Ok (acc ++ ((fun p => mkDocument p.1 p.2) <$> ps)).
Proof.
  intros H. revert acc.
  induction H as [|res p rows ps (d & -> & Htext & Hmeta) _ IH]; intros acc; simpl.
  - by rewrite app_nil_r.
  - rewrite Htext. simpl. rewrite IH, Hmeta. by rewrite <- app_assoc.
Qed.

Lemma no_value_error_docs_and_scores_loop rows acc :
  no_value_error (docs_and_scores_loop TEXT_KEY rows acc).
Proof.
  revert acc. induction rows as [|res rows IH]; intros acc; simpl; [done|].
  apply no_value_error_bind; [|intros ?; apply IH].
  unfold doc_and_score. no_value_error.
Qed.

Lemma no_value_error_threshold_loop kwargs ds acc :
  no_value_error (threshold_loop kwargs ds acc).
Proof.
  revert acc. induction ds as [|[doc score] ds IH]; intros acc; simpl; [done|].
  apply no_value_error_bind; [apply no_value_error_py_gt|].
  intros [|]; apply IH.
Qed.

Lemma no_value_error_full_text_loop rows acc :
  no_value_error (full_text_loop TEXT_KEY rows acc).
Proof.
  revert acc. induction rows as [|res rows IH]; intros acc; simpl; [done|].
  apply no_value_error_bind; [apply no_value_error_pop|].
  intros [text res']. apply no_value_error_bind; [apply no_value_error_Document_new|].
  intros ?. apply IH.
Qed.

(** *** Building and executing the queries *)

Lemma Qgtb_one_positive (z : Z) : (1 ≤ z)%Z → Qgtb 1 (inject_Z z) = false.
Proof.
  intros Hz. destruct (Qgtb 1 (inject_Z z)) eqn:E; [|done].
  apply Qgtb_lt in E. unfold Qlt in E. simpl in E. lia.
Qed.

Lemma with_limit_top_k (kwargs : dict) (dflt : Z) (q : query) :
  top_k_given kwargs →
  (1 ≤ dflt)%Z →
  with_limit (dict_get kwargs "top_k" (VInt dflt)) q
  = Ok (record_limit (dict_get kwargs "top_k" (VInt dflt)) q).
Proof.
  intros [Hnone | (z & Hz & Hpos)] Hd; unfold dict_get, with_limit.
  - rewrite Hnone. simpl. by rewrite Qgtb_one_positive.
  - rewrite Hz. simpl. by rewrite Qgtb_one_positive.
Qed.

Lemma with_where_equality_filter (field val : string) (q : query) :
  with_where (VDict (equality_filter field val)) q
  = Ok (record_where (VDict (equality_filter field val)) q).
Proof. reflexivity. Qed.

Lemma truthy_equality_filter (field val : string) :
  truthy (VDict (equality_filter field val)) = true.
Proof. by apply (truthy_dict_lookup _ "path" (VList [VStr field])). Qed.

Lemma forallb_is_str (names : list string) : forallb is_str (VStr <$> names) = true.
Proof. induction names as [|n names IH]; simpl; [done | exact IH]. Qed.

Lemma text_exists_build_ok (self : WeaviateVector) (id : string) :
  text_exists_build self id = Ok (text_exists_query self id).
Proof. reflexivity. Qed.

Lemma search_by_vector_build_ok (self : WeaviateVector) (query_vector : list Q)
    (kwargs : dict) :
  vector_search_kwargs kwargs →
  search_by_vector_build self query_vector kwargs
  = Ok (search_by_vector_query self query_vector kwargs).
Proof.
  intros [(field & val & Hwhere) Htop].
  unfold search_by_vector_build, search_by_vector_query, with_near_vector.
  rewrite lookup_singleton_eq.
  assert (dict_get kwargs "where_filter" VNone = VDict (equality_filter field val))
    as -> by (unfold dict_get; by rewrite Hwhere).
  cbn [mbind result_bind]. rewrite with_where_equality_filter.
  cbn [mbind result_bind]. by rewrite with_limit_top_k.
Qed.

Lemma search_by_full_text_build_ok (self : WeaviateVector) (query : string)
    (kwargs : dict) :
  full_text_kwargs kwargs →
  search_by_full_text_build self query kwargs
  = Ok (search_by_full_text_query self query kwargs)
  ∧ selects (search_by_full_text_query self query kwargs) = true.
Proof.
  intros (Hwhere & (name & names & Hadd) & Htop).
  unfold search_by_full_text_build, search_by_full_text_query.
  assert (dict_get kwargs "additional" VNone = VList (VStr <$> name :: names)) as ->
    by (unfold dict_get; by rewrite Hadd).
  assert (truthy (VList (VStr <$> name :: names)) = true) as -> by done.
  assert (with_additional (VList (VStr <$> name :: names))
          = fun q => Ok (record_additional (VList (VStr <$> name :: names)) q)) as ->.
  { unfold with_additional. by rewrite forallb_is_str. }
  destruct Hwhere as [Hnone | (field & val & Hwhere)].
  - assert (dict_get kwargs "where_filter" VNone = VNone) as ->
      by (unfold dict_get; by rewrite Hnone).
    simpl. rewrite with_limit_top_k by done. split; [done|].
    reflexivity.
  - assert (dict_get kwargs "where_filter" VNone = VDict (equality_filter field val))
      as -> by (unfold dict_get; by rewrite Hwhere).
    rewrite truthy_equality_filter, with_where_equality_filter. simpl.
    rewrite with_limit_top_k by done. split; [done|].
    reflexivity.
Qed.

(** A query that selects something is executed once, and the state changes in
    nothing else. *)
Lemma do_once (q : query) (c : client) :
  selects q = true →
  do respond q c = (Ok (respond q), set_executed (executed c ++ [q]) c).
Proof. intros H. unfold do. by rewrite H. Qed.

Lemma text_exists_run (self : WeaviateVector) (id : string) (c : client) :
  text_exists respond self id c
  = (match respond (text_exists_query self id) !! "errors" with
     | Some errors => Raise (ValueError "Error during query: " [errors])
     | None =>
         entries ← data_get (respond (text_exists_query self id)) (_collection_name self);
         n ← len entries;
         if ((n : nat) =? 0)%nat then Ok false else Ok true
     end,
     set_executed (executed c ++ [text_exists_query self id]) c).
Proof.
  unfold text_exists. rewrite text_exists_build_ok.
  unfold mbind at 1, State_bind at 1, lift at 1.
  unfold mbind at 1, State_bind at 1. rewrite do_once by done.
  by destruct (respond (text_exists_query self id) !! "errors").
Qed.

Lemma search_by_vector_call (self : WeaviateVector) (query_vector : list Q)
    (kwargs : dict) (c : client) :
  vector_search_kwargs kwargs →
  search_by_vector TEXT_KEY respond self query_vector kwargs c
  = (match respond (search_by_vector_query self query_vector kwargs) !! "errors" with
     | Some errors => Raise (ValueError "Error during query: " [errors])
     | None =>
         rows ← data_get (respond (search_by_vector_query self query_vector kwargs))
                  (_collection_name self);
         rows ← iter rows;
         docs_and_scores ← docs_and_scores_loop TEXT_KEY rows [];
         threshold_loop kwargs docs_and_scores []
     end,
     set_executed (executed c ++ [search_by_vector_query self query_vector kwargs]) c).
Proof.
  intros Hkw. unfold search_by_vector. rewrite search_by_vector_build_ok by done.
  unfold mbind at 1, State_bind at 1, lift at 1.
  unfold mbind at 1, State_bind at 1. rewrite do_once by done.
  by destruct (respond (search_by_vector_query self query_vector kwargs) !! "errors").
Qed.

Lemma search_by_full_text_call (self : WeaviateVector) (query : string)
    (kwargs : dict) (c : client) :
  full_text_kwargs kwargs →
  search_by_full_text TEXT_KEY respond self query kwargs c
  = (match respond (search_by_full_text_query self query kwargs) !! "errors" with
     | Some errors => Raise (ValueError "Error during query: " [errors])
     | None =>
         rows ← data_get (respond (search_by_full_text_query self query kwargs))
                  (_collection_name self);
         rows ← iter rows;
         full_text_loop TEXT_KEY rows []
     end,
     set_executed (executed c ++ [search_by_full_text_query self query kwargs]) c).
Proof.
  intros Hkw. unfold search_by_full_text.
  destruct (search_by_full_text_build_ok self query kwargs Hkw) as [-> Hadd].
  unfold mbind at 1, State_bind at 1, lift at 1.
  unfold mbind at 1, State_bind at 1. rewrite do_once by done.
  by destruct (respond (search_by_full_text_query self query kwargs) !! "errors").
Qed.

Lemma vector_rows_numeric (rows : list value) (ps : list (string * dict * value)) :
  Forall2 (is_vector_row TEXT_KEY) rows ps → Forall (fun p => is_Some (num p.2)) ps.
Proof.
  induction 1 as [|res p rows ps Hrow _ IH]; constructor; [|done].
  by destruct Hrow as (? & ? & _ & _ & _ & _ & _ & _ & ?).
Qed.

(** C1, as the code has it: for a vector search that passes an equality
    filter, a positive [top_k] or none, and a numeric [score_threshold] or
    none, with an error-free response whose rows carry a text and a numeric
    distance: the search returns, in order, exactly the rows whose score is
    strictly greater than [score_threshold] (0.0 when not supplied), each
    with its score stored in the metadata under ["score"]; a row is retained
    if and only if its score exceeds the threshold. *)
Theorem search_by_vector_keeps_scores_above_threshold
    (self : WeaviateVector) (query_vector : list Q) (kwargs : dict) (c : client)
    (rows : list value) (ps : list (string * dict * value)) (th : Q) :
  vector_search_kwargs kwargs →
  respond (search_by_vector_query self query_vector kwargs) !! "errors" = None →
  data_get (respond (search_by_vector_query self query_vector kwargs))
           (_collection_name self) = Ok (VList rows) →
  Forall2 (is_vector_row TEXT_KEY) rows ps →
  num (dict_get kwargs "score_threshold" (VFloat 0)) = Some th →
  search_by_vector TEXT_KEY respond self query_vector kwargs c
  = (Ok (scored <$> filter (fun p => (th < score_of p.2)%Q) ps),
     set_executed (executed c ++ [search_by_vector_query self query_vector kwargs]) c)
  ∧ (∀ p, p ∈ ps →
       (scored p ∈ scored <$> filter (fun p => (th < score_of p.2)%Q) ps
        ↔ (th < score_of p.2)%Q)
       ∧ metadata (scored p) !! "score" = Some p.2)
  ∧ (kwargs !! "score_threshold" = None → th = 0%Q).
Proof.
  intros Hkw Herr Hrows Hps Hth. split; [|split].
  - rewrite search_by_vector_call, Herr, Hrows by done. simpl.
    rewrite (docs_and_scores_loop_rows _ _ [] Hps). simpl.
    rewrite (threshold_loop_filter _ th); [done | done |].
    by eapply vector_rows_numeric.
  - intros p Hp. split; [|apply lookup_insert_eq].
    rewrite list_elem_of_fmap. split.
    + intros (p' & Heq & Hin%list_elem_of_filter).
      destruct Hin as [Hlt _].
      assert (p'.2 = p.2) as <-; [|done].
      unfold scored in Heq. injection Heq as _ Hm.
      assert (<["score" := p.2]> p.1.2 !! "score" = <["score" := p'.2]> p'.1.2 !! "score")
        as Hl by by rewrite Hm.
      rewrite !lookup_insert_eq in Hl. congruence.
    + intros Hlt. exists p. split; [done|]. by apply list_elem_of_filter.
  - intros Hnone. unfold dict_get in Hth. rewrite Hnone in Hth. simpl in Hth. congruence.
Qed.

(** C4, as the code has it: in the existence check, and in a vector search
    and a full-text search whose query can be built and selects something,
    the query is executed exactly once (it is not retried); the call raises
    the query failure, with the backend's [errors] entry in its message,
    exactly when the response has an [errors] entry, whatever that entry
    holds; a response without one is never rejected as a query failure. *)
Theorem query_errors_surface_once (self : WeaviateVector) (id : string)
    (query_vector : list Q) (query : string) (kwargs_vector kwargs_text : dict)
    (c : client) :
  vector_search_kwargs kwargs_vector →
  full_text_kwargs kwargs_text →
  surfaces_errors (text_exists_query self id)
    (respond (text_exists_query self id))
    c (text_exists respond self id c)
  ∧ surfaces_errors (search_by_vector_query self query_vector kwargs_vector)
      (respond (search_by_vector_query self query_vector kwargs_vector))
      c (search_by_vector TEXT_KEY respond self query_vector kwargs_vector c)
  ∧ surfaces_errors (search_by_full_text_query self query kwargs_text)
      (respond (search_by_full_text_query self query kwargs_text))
      c (search_by_full_text TEXT_KEY respond self query kwargs_text c).
Proof.
  intros Hv Ht. unfold surfaces_errors.
  rewrite text_exists_run, search_by_vector_call, search_by_full_text_call by done.
  split; [|split].
  - destruct (respond (text_exists_query self id) !! "errors") as [errors|] eqn:E.
    + split; [done|]. split; [by intros ? [= <-] | done].
    + split; [done|]. split; [done|]. intros _. simpl. no_value_error.
  - destruct (respond (search_by_vector_query self query_vector kwargs_vector) !! "errors")
      as [errors|] eqn:E.
    + split; [done|]. split; [by intros ? [= <-] | done].
    + split; [done|]. split; [done|]. intros _. simpl.
      no_value_error.
      * apply no_value_error_docs_and_scores_loop.
      * apply no_value_error_threshold_loop.
  - destruct (respond (search_by_full_text_query self query kwargs_text) !! "errors")
      as [errors|] eqn:E.
    + split; [done|]. split; [by intros ? [= <-] | done].
    + split; [done|]. split; [done|]. intros _. simpl.
      no_value_error. apply no_value_error_full_text_loop.
Qed.

(** C8: the existence check executes one query on the collection, filtered
    on [doc_id] equal to the given id and limited to one row; with an
    error-free response it returns true exactly when the response holds at
    least one row. *)
Theorem text_exists_iff_row (self : WeaviateVector) (id : string) (c : client)
    (entries : list value) :
  respond (text_exists_query self id) !! "errors" = None →
  data_get (respond (text_exists_query self id)) (_collection_name self)
  = Ok (VList entries) →
  text_exists respond self id c
  = (Ok (bool_decide (entries ≠ [])),
     set_executed (executed c ++ [text_exists_query self id]) c)
  ∧ q_class_name (text_exists_query self id) = _collection_name self
  ∧ q_where (text_exists_query self id)
    = Some (VDict {[ "path" := VList [VStr "doc_id"];
                     "operator" := VStr "Equal";
                     "valueText" := VStr id ]})
  ∧ q_limit (text_exists_query self id) = Some (VInt 1).
Proof.
  intros Herr Hrows. split; [|done].
  rewrite text_exists_run, Herr, Hrows. simpl. by destruct entries.
Qed.


(** C10: two calls of full-text search whose keyword arguments differ only in
    [search_distance] build the same query and, run against the same backend
    from the same state, give the same result and leave the same state. *)
Theorem search_by_full_text_ignores_search_distance (self : WeaviateVector)
    (query : string) (kwargs1 kwargs2 : dict) :
  delete "search_distance" kwargs1 = delete "search_distance" kwargs2 →
  search_by_full_text_query self query kwargs1
  = search_by_full_text_query self query kwargs2
  ∧ ∀ c, search_by_full_text TEXT_KEY respond self query kwargs1 c
         = search_by_full_text TEXT_KEY respond self query kwargs2 c.
Proof.
  intros Heq.
  assert (∀ k dflt, k ≠ "search_distance" →
                    dict_get kwargs1 k dflt = dict_get kwargs2 k dflt) as Hget.
  { intros k dflt Hk.
    rewrite <- (dict_get_delete_ne kwargs1 "search_distance" k) by done.
    rewrite <- (dict_get_delete_ne kwargs2 "search_distance" k) by done.
    by rewrite Heq. }
  assert (search_by_full_text_query self query kwargs1
          = search_by_full_text_query self query kwargs2) as Hq.
  { unfold search_by_full_text_query.
    by rewrite !(Hget "where_filter"), !(Hget "additional"), !(Hget "top_k"). }
  assert (search_by_full_text_build self query kwargs1
          = search_by_full_text_build self query kwargs2) as Hb.
  { unfold search_by_full_text_build.
    by rewrite !(Hget "where_filter"), !(Hget "additional"), !(Hget "top_k"). }
  split; [done|]. intros c. unfold search_by_full_text. by rewrite Hb.
Qed.

End Searches.
(** *** The batch writer *)

Lemma set_batch_id (c : client) : set_batch (objects c) (batch c) c = c.
Proof. by destruct c. Qed.

Lemma drop_cons_inv {A} (l l' : list A) (i : nat) (x : A) :
  x :: l' = drop i l → l !! i = Some x ∧ l' = drop (S i) l.
Proof.
  intros H.
  assert (l !! i = Some x) as Hx.
  { rewrite <- (Nat.add_0_r i), <- lookup_drop, <- H. done. }
  split; [done|]. rewrite (drop_S _ _ _ Hx) in H. congruence.
Qed.

(** A dictionary can be encoded exactly when each of its values can. *)
Lemma encodable_dict (d : dict) :
  encodable (VDict d) = true ↔ map_Forall (fun _ x => encodable x = true) d.
Proof.
  simpl. induction d as [|k x d Hk Hfold IH] using map_first_key_ind.
  - rewrite map_fold_empty. split; [intros _; apply map_Forall_empty | done].
  - rewrite map_fold_insert_first_key by done.
    by rewrite andb_true_iff, IH, map_Forall_insert.
Qed.

Lemma forallb_app_true {A} (f : A → bool) (l l' : list A) :
  forallb f l = true → forallb f l' = true → forallb f (l ++ l') = true.
Proof. intros H H'. by rewrite forallb_app, H, H'. Qed.

Section Writes.
Variable TEXT_KEY : string.
Variable batch_ready : Z → list data_object → bool.
Variable valid_uuid : string → bool.
Variable uuid_of_doc_id : value → string.
Variable random_uuid : nat → string.

Abbreviation uuids_of := (_get_uuids uuid_of_doc_id random_uuid).
Abbreviation objects_of := (data_objects_of TEXT_KEY uuid_of_doc_id random_uuid).

(** Inserting the items of a metadata dictionary one by one gives its
    normalized image, laid over the text entry. *)
Lemma data_properties_of_lookup (text : string) (meta : dict) (k : string) :
  data_properties_of TEXT_KEY text meta !! k
  = match meta !! k with
    | Some v => Some (_json_serializable v)
    | None => ({[ TEXT_KEY := VStr text ]} : dict) !! k
    end.
Proof.
  unfold data_properties_of.
  rewrite <- (list_to_map_to_list meta) at 2.
  pose proof (NoDup_fst_map_to_list meta) as Hnd.
  generalize dependent (map_to_list meta). intros l.
  generalize ({[ TEXT_KEY := VStr text ]} : dict).
  induction l as [|[k' v'] l IH]; intros m0 Hnd; simpl.
  - by rewrite lookup_empty.
  - apply NoDup_cons in Hnd as [Hk' Hnd]. rewrite IH by done.
    destruct (decide (k' = k)) as [->|Hne].
    + rewrite lookup_insert_eq.
      rewrite (proj1 (not_elem_of_list_to_map l k)) by done.
      by rewrite lookup_insert_eq.
    + rewrite (lookup_insert_ne (list_to_map l)) by done.
      destruct (list_to_map l !! k); [done|]. by rewrite lookup_insert_ne.
Qed.

(** The properties of a document can be encoded when its normalized metadata
    can. *)
Lemma data_properties_of_encodable (text : string) (meta : dict) :
  map_Forall (fun _ v => encodable (_json_serializable v) = true) meta →
  encodable (VDict (data_properties_of TEXT_KEY text meta)) = true.
Proof.
  intros Hmeta. apply encodable_dict. intros k x.
  rewrite data_properties_of_lookup.
  destruct (meta !! k) as [v|] eqn:Hk.
  - intros [= <-]. by apply (Hmeta k).
  - intros [-> <-]%lookup_singleton_Some. done.
Qed.

(** Whatever the batching decides, an accepted object ends up behind the
    ones before it, stored or still waiting. *)
Lemma add_data_object_run (o : data_object) (c : client) :
  valid_uuid (o_uuid o) = true →
  object_encodable o = true →
  batch_encodable c →
  ∃ os b,
    add_data_object batch_ready valid_uuid o c = (Ok (), set_batch os b c)
    ∧ os ++ b = objects c ++ batch c ++ [o]
    ∧ forallb object_encodable b = true.
Proof.
  intros Hu Ho Hb. unfold add_data_object, flush. rewrite Hu. simpl.
  assert (forallb object_encodable (batch c ++ [o]) = true) as Hall.
  { apply forallb_app_true; [done|]. simpl. by rewrite Ho. }
  destruct (batch_ready _ _).
  - rewrite Hall. exists (objects c ++ batch c ++ [o]), [].
    split; [done|]. by rewrite app_nil_r.
  - by exists (objects c), (batch c ++ [o]).
Qed.

Lemma add_texts_loop_run (self : WeaviateVector) (documents : list Document)
    (embeddings : list (list Q)) (texts : list string) :
  vectors_match documents embeddings →
  encodable_documents documents →
  valid_uuids valid_uuid uuid_of_doc_id random_uuid documents →
  ∀ (i : nat) (ids : list string) (c : client),
    texts = drop i (page_content <$> documents) →
    batch_encodable c →
    ∃ os b,
      add_texts_loop TEXT_KEY batch_ready valid_uuid self (uuids_of documents)
        (metadata <$> documents) embeddings i texts ids c
      = (Ok (ids ++ drop i (uuids_of documents)), set_batch os b c)
      ∧ os ++ b
        = objects c ++ batch c ++ drop i (objects_of self documents embeddings)
      ∧ forallb object_encodable b = true.
Proof.
  intros Hvec Henc Hval. induction texts as [|text texts IH]; intros i ids c Htexts Hb.
  - assert (length documents ≤ i) as Hlen.
    { apply (f_equal length) in Htexts. rewrite length_drop, length_fmap in Htexts.
      simpl in Htexts. lia. }
    exists (objects c), (batch c). simpl.
    rewrite !drop_ge, !app_nil_r, set_batch_id;
      [done | | ]; unfold data_objects_of, _get_uuids; by rewrite length_imap.
  - apply drop_cons_inv in Htexts as [Htext Htexts].
    apply list_lookup_fmap_Some in Htext as (d & -> & Hd).
    assert (uuids_of documents !! i
            = Some (match metadata d !! "doc_id" with
                    | Some doc_id => uuid_of_doc_id doc_id
                    | None => random_uuid i
                    end)) as Hu.
    { unfold _get_uuids. by rewrite list_lookup_imap, Hd. }
    assert (match embeddings with
            | [] => Ok None
            | _ => Some <$> index embeddings i
            end = Ok (embeddings !! i)) as He.
    { destruct Hvec as [->|Hle]; [done|].
      destruct (lookup_lt_is_Some_2 embeddings i) as [e He].
      { apply lookup_lt_Some in Hd. lia. }
      unfold index. rewrite He. by destruct embeddings. }
    assert (objects_of self documents embeddings !! i
            = Some (DataObject
                      (data_properties_of TEXT_KEY (page_content d) (metadata d))
                      (_collection_name self)
                      (match metadata d !! "doc_id" with
                       | Some doc_id => uuid_of_doc_id doc_id
                       | None => random_uuid i
                       end)
                      (embeddings !! i))) as Ho.
    { unfold data_objects_of. by rewrite list_lookup_imap, Hd, Hu. }
    simpl. unfold mbind at 1, State_bind at 1, lift at 1, index at 1.
    rewrite list_lookup_fmap, Hd. simpl.
    unfold mbind at 1, State_bind at 1, lift at 1, index at 1. rewrite Hu.
    unfold mbind at 1, State_bind at 1, lift at 1. rewrite He.
    unfold mbind at 1, State_bind at 1.
    destruct (add_data_object_run
                (DataObject (data_properties_of TEXT_KEY (page_content d) (metadata d))
                   (_collection_name self)
                   (match metadata d !! "doc_id" with
                    | Some doc_id => uuid_of_doc_id doc_id
                    | None => random_uuid i
                    end)
                   (embeddings !! i)) c) as (os1 & b1 & -> & Hsplit & Hb1).
    { exact (proj1 (Forall_lookup _ _) Hval i _ Hu). }
    { apply data_properties_of_encodable.
      exact (proj1 (Forall_lookup _ _) Henc i _ Hd). }
    { done. }
    unfold mbind at 1, State_bind at 1, lift at 1, index at 1. rewrite Hu.
    destruct (IH (S i) (ids ++ [match metadata d !! "doc_id" with
                                | Some doc_id => uuid_of_doc_id doc_id
                                | None => random_uuid i
                                end]) (set_batch os1 b1 c) Htexts)
      as (os & b & -> & Hfinal & Hbfinal).
    { exact Hb1. }
    exists os, b. split; [|split; [|done]].
    + rewrite (drop_S _ _ _ Hu), <- app_assoc. by destruct c.
    + rewrite Hfinal. simpl. rewrite (drop_S _ _ _ Ho).
      rewrite (app_assoc os1), Hsplit. by rewrite <- !app_assoc.
Qed.

Lemma add_texts_run (self : WeaviateVector) (documents : list Document)
    (embeddings : list (list Q)) (c : client) :
  vectors_match documents embeddings →
  encodable_documents documents →
  valid_uuids valid_uuid uuid_of_doc_id random_uuid documents →
  batch_encodable c →
  add_texts TEXT_KEY batch_ready valid_uuid uuid_of_doc_id random_uuid self
    documents embeddings c
  = (Ok (uuids_of documents),
     set_batch (objects c ++ batch c ++ objects_of self documents embeddings) [] c).
Proof.
  intros Hvec Henc Hval Hb. unfold add_texts, with_batch.
  destruct (add_texts_loop_run self documents embeddings
              (page_content <$> documents) Hvec Henc Hval 0 [] c eq_refl Hb)
    as (os & b & -> & Hsplit & Hbfinal).
  unfold flush. simpl. rewrite Hbfinal. rewrite Hsplit. by destruct c.
Qed.

End Writes.

(** *** Schema creation *)

Lemma class_name_of_default_schema (name : string) :
  class_name_of (_default_schema name) = Some name.
Proof. unfold class_name_of, _default_schema. by rewrite lookup_insert_eq. Qed.

Lemma property_names_default_schema (name : string) :
  property_names (_default_schema name) = ["text"].
Proof. reflexivity. Qed.

(** The class stored for the default schema is the default schema of the
    capitalized name. *)
Lemma default_schema_stored (name m : string) :
  <["class" := VStr m]> (_default_schema name) = _default_schema m.
Proof. unfold _default_schema. by rewrite insert_insert_eq. Qed.

Lemma capitalize_first_letter_nonempty (s : string) :
  s ≠ "" → ∃ m, capitalize_first_letter s = Ok m.
Proof. destruct s; [done|]. by eexists. Qed.

Lemma covers_default_schema (name m : string) :
  capitalize_first_letter name = Ok m →
  covers (_default_schema name) (_default_schema m) = true.
Proof.
  intros Hm. unfold covers.
  rewrite !class_name_of_default_schema, Hm, !property_names_default_schema.
  by rewrite String.eqb_refl.
Qed.

Lemma covers_class_name (schema loaded : dict) :
  covers schema loaded = true →
  ∃ n m, class_name_of schema = Some n ∧ capitalize_first_letter n = Ok m
         ∧ class_name_of loaded = Some m.
Proof.
  unfold covers.
  destruct (class_name_of schema) as [n|]; [|done].
  destruct (class_name_of loaded) as [n'|]; [|done].
  destruct (capitalize_first_letter n) as [m|] eqn:Hm; [|done].
  intros [Hn _]%andb_true_iff. apply String.eqb_eq in Hn. subst. by exists n, n'.
Qed.

(** With a name that can be capitalized, the loop of [schema.contains] looks
    for a loaded class that covers the schema. *)
Lemma compare_class_sets_covers (schema : dict) (cs : list dict) (n m : string) :
  class_name_of schema = Some n →
  capitalize_first_letter n = Ok m →
  compare_class_sets schema cs = Ok (existsb (covers schema) cs).
Proof.
  intros Hn Hm. induction cs as [|loaded cs IH]; simpl; [done|].
  rewrite Hn, Hm. simpl. destruct (covers schema loaded); [done|]. by rewrite IH.
Qed.

Lemma absent_not_contained (schema : dict) (cs : list dict) :
  has_class (class_name_of schema) cs = false → existsb (covers schema) cs = false.
Proof.
  unfold has_class. induction cs as [|loaded cs IH]; simpl; [done|].
  intros [Hhead Htail]%orb_false_iff. rewrite (IH Htail), orb_false_r.
  destruct (covers schema loaded) eqn:E; [|done].
  apply covers_class_name in E as (n & m & Hn & Hm & Hl).
  rewrite Hn in Hhead. simpl in Hhead. rewrite Hm in Hhead.
  by rewrite bool_decide_eq_true_2 in Hhead.
Qed.

Lemma absent_filter_nil (n m : string) (cs : list dict) :
  capitalize_first_letter n = Ok m →
  has_class (Some n) cs = false →
  filter (fun loaded => class_name_of loaded = Some m) cs = [].
Proof.
  intros Hm. unfold has_class. simpl. rewrite Hm.
  induction cs as [|loaded cs IH]; simpl; [done|].
  intros [Hhead Htail]%orb_false_iff. apply bool_decide_eq_false in Hhead.
  rewrite filter_cons_False by done. by apply IH.
Qed.

Section Creation.
Variable TEXT_KEY : string.
Variable batch_ready : Z → list data_object → bool.
Variable valid_uuid : string → bool.
Variable uuid_of_doc_id : value → string.
Variable random_uuid : nat → string.

Abbreviation create' := (create TEXT_KEY batch_ready valid_uuid uuid_of_doc_id random_uuid).

Lemma create_run_present (self : WeaviateVector) (texts : list Document)
    (embeddings : list (list Q)) (c : client) :
  vectors_match texts embeddings →
  encodable_documents texts →
  valid_uuids valid_uuid uuid_of_doc_id random_uuid texts →
  batch_encodable c →
  existsb (covers (_default_schema (_collection_name self))) (classes c) = true →
  create' self texts embeddings c
  = (Ok (),
     set_batch (objects c ++ batch c
                ++ data_objects_of TEXT_KEY uuid_of_doc_id random_uuid self texts embeddings)
               [] c).
Proof.
  intros Hvec Henc Hval Hb Hin.
  assert (∃ m, capitalize_first_letter (_collection_name self) = Ok m) as [m Hm].
  { apply existsb_exists in Hin as (loaded & _ & Hcov).
    apply covers_class_name in Hcov as (n & m & Hn & Hm & _).
    rewrite class_name_of_default_schema in Hn. injection Hn as <-. by exists m. }
  unfold create, schema_contains, mbind, State_bind.
  rewrite (compare_class_sets_covers _ _ _ m (class_name_of_default_schema _) Hm).
  rewrite Hin. simpl. by rewrite add_texts_run.
Qed.

Lemma create_run_absent (self : WeaviateVector) (texts : list Document)
    (embeddings : list (list Q)) (c : client) (m : string) :
  vectors_match texts embeddings →
  encodable_documents texts →
  valid_uuids valid_uuid uuid_of_doc_id random_uuid texts →
  batch_encodable c →
  capitalize_first_letter (_collection_name self) = Ok m →
  has_class (Some (_collection_name self)) (classes c) = false →
  create' self texts embeddings c
  = (Ok (),
     set_batch (objects c ++ batch c
                ++ data_objects_of TEXT_KEY uuid_of_doc_id random_uuid self texts embeddings)
               []
               (set_classes (classes c ++ [_default_schema m]) c)).
Proof.
  intros Hvec Henc Hval Hb Hm Habs. unfold create, schema_contains, mbind, State_bind.
  rewrite (compare_class_sets_covers _ _ _ m (class_name_of_default_schema _) Hm).
  rewrite absent_not_contained by by rewrite class_name_of_default_schema.
  simpl. unfold schema_create_class.
  rewrite class_name_of_default_schema, Hm, Habs, default_schema_stored.
  rewrite add_texts_run; [done | done | done | done | by destruct c].
Qed.

End Creation.

(** C3, as the code has it: given documents whose normalized metadata can be
    encoded, ids the client accepts, and vectors that are absent or at least
    as many as the documents, [add_texts] returns one id per document, the
    i-th id being the one the identity assigner gives the i-th document;
    whatever the batching policy, the ids returned and the objects written
    are the same, and every object has left the batch. *)
Theorem add_texts_returns_ids_in_input_order (TEXT_KEY : string)
    (batch_ready : Z → list data_object → bool) (valid_uuid : string → bool)
    (uuid_of_doc_id : value → string) (random_uuid : nat → string)
    (self : WeaviateVector) (documents : list Document)
    (embeddings : list (list Q)) (c : client) :
  vectors_match documents embeddings →
  encodable_documents documents →
  valid_uuids valid_uuid uuid_of_doc_id random_uuid documents →
  batch_encodable c →
  ∃ ids c',
    add_texts TEXT_KEY batch_ready valid_uuid uuid_of_doc_id random_uuid self
      documents embeddings c
    = (Ok ids, c')
    ∧ length ids = length documents
    ∧ (∀ i d, documents !! i = Some d →
         ids !! i = Some (match metadata d !! "doc_id" with
                          | Some doc_id => uuid_of_doc_id doc_id
                          | None => random_uuid i
                          end))
    ∧ (o_uuid <$> drop (length (objects c ++ batch c)) (objects c')) = ids
    ∧ batch c' = []
    ∧ ∀ other_policy,
        add_texts TEXT_KEY other_policy valid_uuid uuid_of_doc_id random_uuid self
          documents embeddings c
        = (Ok ids, c').
Proof.
  intros Hvec Henc Hval Hb. eexists _, _. split; [by apply add_texts_run|].
  split; [unfold _get_uuids; by rewrite length_imap|].
  split; [intros i d Hd; unfold _get_uuids; by rewrite list_lookup_imap, Hd|].
  split; [|split; [by destruct c | intros; by apply add_texts_run]].
  replace (objects (set_batch _ _ c))
    with ((objects c ++ batch c)
          ++ data_objects_of TEXT_KEY uuid_of_doc_id random_uuid self documents embeddings)
    by (destruct c; simpl; by rewrite <- app_assoc).
  rewrite drop_app_length. unfold data_objects_of.
  apply list_eq. intros i.
  rewrite list_lookup_fmap, list_lookup_imap.
  destruct (documents !! i) as [d|] eqn:Hd; simpl.
  - unfold _get_uuids. by rewrite list_lookup_imap, Hd.
  - unfold _get_uuids. by rewrite list_lookup_imap, Hd.
Qed.

(** C5, as the code has it: for the i-th document of a write that goes
    through, the properties transmitted hold every metadata value passed
    through [_json_serializable], under its key, and nothing else besides
    the text; the text is stored under the reserved name when the metadata
    has no entry of that name; [_json_serializable] turns a date/time value
    into its ISO-8601 string and returns any other value unchanged. *)
Theorem add_texts_transmits_text_and_serialized_metadata (TEXT_KEY : string)
    (batch_ready : Z → list data_object → bool) (valid_uuid : string → bool)
    (uuid_of_doc_id : value → string) (random_uuid : nat → string)
    (self : WeaviateVector) (documents : list Document)
    (embeddings : list (list Q)) (c : client) (i : nat) (d : Document) :
  vectors_match documents embeddings →
  encodable_documents documents →
  valid_uuids valid_uuid uuid_of_doc_id random_uuid documents →
  batch_encodable c →
  documents !! i = Some d →
  ∃ o,
    objects (add_texts TEXT_KEY batch_ready valid_uuid uuid_of_doc_id random_uuid self
               documents embeddings c).2 !! (length (objects c ++ batch c) + i) = Some o
    ∧ (metadata d !! TEXT_KEY = None →
       o_data_object o !! TEXT_KEY = Some (VStr (page_content d)))
    ∧ (∀ k v, metadata d !! k = Some v →
         o_data_object o !! k = Some (_json_serializable v))
    ∧ (∀ k, k ≠ TEXT_KEY → metadata d !! k = None → o_data_object o !! k = None)
    ∧ (∀ t, _json_serializable (VDatetime t) = VStr (isoformat t))
    ∧ (∀ v, (∀ t, v ≠ VDatetime t) → _json_serializable v = v).
Proof.
  intros Hvec Henc Hval Hb Hd. rewrite add_texts_run by done.
  eexists. split.
  { cbn [snd set_batch objects]. rewrite (app_assoc (objects c)).
    rewrite lookup_app_r by lia.
    replace (length (objects c ++ batch c) + i - length (objects c ++ batch c)) with i
      by lia.
    unfold data_objects_of. by rewrite list_lookup_imap, Hd. }
  simpl. split; [|split; [|split; [|split]]].
  - intros Hfree. by rewrite data_properties_of_lookup, Hfree, lookup_singleton_eq.
  - intros k v Hk. by rewrite data_properties_of_lookup, Hk.
  - intros k Hne Hk. by rewrite data_properties_of_lookup, Hk, lookup_singleton_ne.
  - done.
  - intros v Hv. destruct v; try done. by destruct (Hv d0).
Qed.

(** C6, as the code has it: the schema [create] asks for has one property,
    the text-typed [text]. Given documents that can be written: when the
    backend already holds a class that covers that schema, [create] returns
    without raising and leaves the classes as they are; when the backend
    holds no class of the collection's capitalized name, [create] returns
    without raising and adds exactly that schema under the capitalized name,
    and a second [create] returns without raising, adds nothing, and leaves
    one class of that name. *)
Theorem create_is_idempotent (TEXT_KEY : string)
    (batch_ready : Z → list data_object → bool) (valid_uuid : string → bool)
    (uuid_of_doc_id : value → string) (random_uuid : nat → string)
    (self : WeaviateVector) (texts texts' : list Document)
    (embeddings embeddings' : list (list Q)) (c : client) :
  vectors_match texts embeddings →
  vectors_match texts' embeddings' →
  encodable_documents texts →
  encodable_documents texts' →
  valid_uuids valid_uuid uuid_of_doc_id random_uuid texts →
  valid_uuids valid_uuid uuid_of_doc_id random_uuid texts' →
  batch_encodable c →
  _default_schema (_collection_name self) !! "properties"
  = Some (VList [VDict {[ "name" := VStr "text"; "dataType" := VList [VStr "text"] ]}])
  ∧ (existsb (covers (_default_schema (_collection_name self))) (classes c) = true →
     ∃ c1,
       create TEXT_KEY batch_ready valid_uuid uuid_of_doc_id random_uuid self texts
         embeddings c
       = (Ok (), c1)
       ∧ classes c1 = classes c)
  ∧ (∀ name,
       capitalize_first_letter (_collection_name self) = Ok name →
       has_class (Some (_collection_name self)) (classes c) = false →
       ∃ c1 c2,
         create TEXT_KEY batch_ready valid_uuid uuid_of_doc_id random_uuid self texts
           embeddings c
         = (Ok (), c1)
         ∧ classes c1 = classes c ++ [_default_schema name]
         ∧ create TEXT_KEY batch_ready valid_uuid uuid_of_doc_id random_uuid self texts'
             embeddings' c1
           = (Ok (), c2)
         ∧ classes c2 = classes c1
         ∧ length (filter (fun loaded => class_name_of loaded = Some name)
                          (classes c2)) = 1).
Proof.
  intros Hvec Hvec' Henc Henc' Hval Hval' Hb. split; [done|]. split.
  - intros Hin. eexists. split; [by apply create_run_present|]. by destruct c.
  - intros name Hname Habs. eexists _, _.
    split; [by apply (create_run_absent _ _ _ _ _ _ _ _ _ name)|].
    split; [by destruct c|].
    split.
    { apply create_run_present; [done | done | done | by destruct c |].
      destruct c; simpl.
      rewrite existsb_app. simpl. by rewrite covers_default_schema, orb_true_r. }
    split; [by destruct c|].
    destruct c; simpl in *.
    rewrite filter_app, (absent_filter_nil (_collection_name self)) by done.
    rewrite filter_cons_True by apply class_name_of_default_schema.
    done.
Qed.

(** C7: building the configuration with an empty endpoint fails with a
    validation error, and an adapter built from it contacts no backend; a
    non-empty endpoint passes validation; [_init_client] raises the
    connection error only after one connection attempt at an endpoint where
    nothing answers, and, given an API key, exactly when nothing answers
    there; without a key it fails before the attempt, with another error;
    and a validation error is never a connection error. *)
Theorem empty_endpoint_fails_before_connecting
    (backend : string → option (list dict * list data_object))
    (key : option string) (size : option Z)
    (collection_name : string) (attributes : list string) (contacted : list string) :
  WeaviateConfig_new "" key size
  = Raise (ValidationError [ValueError "config WEAVIATE_ENDPOINT is required" []])
  ∧ (lift (WeaviateConfig_new "" key size)
     ≫= (fun config => __init__ backend collection_name config attributes)) contacted
    = (Raise (ValidationError [ValueError "config WEAVIATE_ENDPOINT is required" []]),
       contacted)
  ∧ (∀ endpoint,
       endpoint ≠ "" →
       WeaviateConfig_new endpoint key size
       = Ok (mkWeaviateConfig endpoint key (default 100%Z size)))
  ∧ (∀ config,
       (∀ msg, (_init_client backend config contacted).1 = Raise (ConnectionError msg)
               → backend (endpoint config) = None
                 ∧ (_init_client backend config contacted).2
                   = contacted ++ [endpoint config])
       ∧ (is_Some (api_key config) →
          (_init_client backend config contacted).2 = contacted ++ [endpoint config]
          ∧ ((_init_client backend config contacted).1
             = Raise (ConnectionError "Vector database connection error")
             ↔ backend (endpoint config) = None))
       ∧ (api_key config = None →
          _init_client backend config contacted = (Raise TypeError, contacted)))
  ∧ (∀ errors msg, ValidationError errors ≠ ConnectionError msg).
Proof.
  split; [done|]. split; [done|]. split; [|split; [|done]].
  - intros endpoint Hne. unfold WeaviateConfig_new, validate_config. simpl.
    destruct (String.eqb_spec endpoint ""); [done | done].
  - intros config. unfold _init_client, Client_new.
    destruct (api_key config) as [secret|].
    + destruct (backend (endpoint config)) as [[cs os]|]; simpl.
      * assert (∀ e, batch_configure (batch_size config) true 3 (connected cs os)
                     ≠ Raise (ConnectionError e)) as Hconf.
        { intros e. unfold batch_configure. by repeat case_match. }
        split; [intros msg H; by destruct (Hconf msg H)|].
        split; [|done]. intros _. split; [done|]. split; [|done].
        intros H. by destruct (Hconf _ H).
      * split; [done|]. split; [|done]. intros _. done.
    + split; [done|]. split; [|done]. by intros [? ?].
Qed.

(** ** The properties at work on the sample data *)

Ltac vector_row :=
  eexists _, _;
  split; [reflexivity|];
  split; [vm_compute; reflexivity|];
  split; [vm_compute; reflexivity|];
  split; [vm_compute; reflexivity|];
  split; [discriminate|];
  split; [reflexivity|];
  eexists; reflexivity.

Ltac text_row :=
  eexists;
  split; [reflexivity|];
  split; vm_compute; reflexivity.

Lemma three_rows_are_vector_rows :
  Forall2 (is_vector_row "text") Sample.three_rows Sample.three_parts.
Proof. repeat (constructor 2; [vector_row|]). constructor 1. Defined.


Lemma filtered_is_vector_search_kwargs : vector_search_kwargs Sample.filtered.
Proof. split; [by exists "doc_id", "a" | by left]. Defined.

Lemma threshold_half_is_vector_search_kwargs : vector_search_kwargs Sample.threshold_half.
Proof. split; [by exists "doc_id", "a" | by left]. Defined.

Lemma threshold_none_is_vector_search_kwargs : vector_search_kwargs Sample.threshold_none.
Proof. split; [by exists "doc_id", "a" | by left]. Defined.

Lemma with_id_is_full_text_kwargs : full_text_kwargs Sample.with_id.
Proof. split; [by left|]. split; [by exists "id", [] | by left]. Defined.


Lemma sample_documents_encodable : encodable_documents Sample.documents.
Proof. apply (bool_decide_unpack _). vm_compute. exact I. Defined.

Lemma sample_documents_valid_uuids :
  valid_uuids Sample.valid_uuid Sample.uuid_of_doc_id Sample.random_uuid Sample.documents.
Proof. apply (bool_decide_unpack _). vm_compute. exact I. Defined.

Lemma sample_documents_no_vectors : vectors_match Sample.documents [].
Proof. left. reflexivity. Defined.

Lemma fresh_batch_encodable : batch_encodable Sample.fresh.
Proof. reflexivity. Defined.

(** C1, as stated, fails: with distances 0.1, 0.5 and 0.9 and a threshold of
    0.5, the rows at 0.1 and 0.5 satisfy [score <= score_threshold] and are
    dropped, and the row at 0.9 does not and is the only one returned. *)
Lemma search_by_vector_drops_scores_within_threshold :
  (search_by_vector "text" Sample.respond_three Sample.self [] Sample.threshold_half
     Sample.fresh).1
  = Ok [scored (Sample.parts "c" (9 # 10))]
  ∧ (1 # 10 <= 1 # 2)%Q
  ∧ (1 # 2 <= 1 # 2)%Q
  ∧ ¬ (9 # 10 <= 1 # 2)%Q.
Proof.
  split; [vm_compute; reflexivity|].
  split; [by vm_compute|]. split; [by vm_compute|].
  intros H. by vm_compute in H.
Qed.

Lemma search_by_vector_keeps_scores_above_threshold_witness :
  vector_search_kwargs Sample.threshold_half
  ∧ Sample.respond_three (search_by_vector_query Sample.self [] Sample.threshold_half)
      !! "errors" = None
  ∧ Forall2 (is_vector_row "text") Sample.three_rows Sample.three_parts
  ∧ num (dict_get Sample.threshold_half "score_threshold" (VFloat 0)) = Some (1 # 2)
  ∧ search_by_vector "text" Sample.respond_three Sample.self [] Sample.threshold_half
      Sample.fresh
    = (Ok (scored <$> filter (fun p => (1 # 2 < score_of p.2)%Q) Sample.three_parts),
       set_executed
         (executed Sample.fresh
          ++ [search_by_vector_query Sample.self [] Sample.threshold_half])
         Sample.fresh).
Proof.
  assert (Sample.respond_three
            (search_by_vector_query Sample.self [] Sample.threshold_half)
            !! "errors" = None) as H1 by (vm_compute; reflexivity).
  assert (data_get
            (Sample.respond_three
               (search_by_vector_query Sample.self [] Sample.threshold_half))
            (_collection_name Sample.self) = Ok (VList Sample.three_rows)) as H2
    by (vm_compute; reflexivity).
  assert (num (dict_get Sample.threshold_half "score_threshold" (VFloat 0))
          = Some (1 # 2)) as H4 by (vm_compute; reflexivity).
  split; [exact threshold_half_is_vector_search_kwargs|].
  split; [exact H1|]. split; [exact three_rows_are_vector_rows|]. split; [exact H4|].
  exact (proj1 (search_by_vector_keeps_scores_above_threshold "text"
                  Sample.respond_three Sample.self [] Sample.threshold_half Sample.fresh
                  Sample.three_rows Sample.three_parts (1 # 2)
                  threshold_half_is_vector_search_kwargs
                  H1 H2 three_rows_are_vector_rows H4)).
Defined.

Lemma get_collection_name_deterministic_idempotent_witness :
  truthy (Dataset.index_struct_dict (Dataset.mk "a-b-c" VNone)) = false
  ∧ get_collection_name (Dataset.mk "a-b-c" VNone) = Ok "Vector_index_a_b_c_Node"
  ∧ get_collection_name
      (Dataset.mk "d-e-f"
         (VDict (to_index_struct (mkWeaviateVector "Vector_index_a_b_c_Node" []))))
    = Ok "Vector_index_a_b_c_Node".
Proof.
  pose proof (get_collection_name_deterministic_idempotent (Dataset.mk "a-b-c" VNone))
    as (Hgenerated & _ & _ & Hstable).
  split; [reflexivity|]. split; [exact (Hgenerated eq_refl)|].
  exact (proj2 (Hstable "Vector_index_a_b_c_Node" (Hgenerated eq_refl)) "d-e-f" []).
Defined.

(** C3, as stated, fails: a document with a date/time value inside a list
    gets a valid id, but the request that carries it cannot be encoded;
    [add_texts] raises, returns no id and stores nothing. *)
Lemma add_texts_returns_no_id_for_nested_date :
  vectors_match [Sample.nested_date] []
  ∧ valid_uuids Sample.valid_uuid Sample.uuid_of_doc_id Sample.random_uuid
      [Sample.nested_date]
  ∧ length [Sample.nested_date] = 1
  ∧ add_texts "text" Sample.every_two Sample.valid_uuid Sample.uuid_of_doc_id
      Sample.random_uuid Sample.self [Sample.nested_date] [] Sample.fresh
    = (Raise TypeError, Sample.fresh).
Proof.
  split; [by left|].
  split; [apply (bool_decide_unpack _); vm_compute; exact I|].
  split; [reflexivity|]. vm_compute. reflexivity.
Qed.

Lemma add_texts_returns_ids_in_input_order_witness :
  vectors_match Sample.documents []
  ∧ encodable_documents Sample.documents
  ∧ valid_uuids Sample.valid_uuid Sample.uuid_of_doc_id Sample.random_uuid
      Sample.documents
  ∧ batch_encodable Sample.fresh
  ∧ ∃ ids c',
      add_texts "text" Sample.every_two Sample.valid_uuid Sample.uuid_of_doc_id
        Sample.random_uuid Sample.self Sample.documents [] Sample.fresh
      = (Ok ids, c')
      ∧ length ids = length Sample.documents.
Proof.
  split; [exact sample_documents_no_vectors|].
  split; [exact sample_documents_encodable|].
  split; [exact sample_documents_valid_uuids|].
  split; [exact fresh_batch_encodable|].
  destruct (add_texts_returns_ids_in_input_order "text" Sample.every_two
              Sample.valid_uuid Sample.uuid_of_doc_id Sample.random_uuid Sample.self
              Sample.documents [] Sample.fresh
              sample_documents_no_vectors sample_documents_encodable
              sample_documents_valid_uuids fresh_batch_encodable)
    as (ids & c' & Hrun & Hlen & _).
  exists ids, c'. split; [exact Hrun | exact Hlen].
Defined.

(** C4, as stated, fails: a response whose error list is empty is rejected
    as a query failure by all three operations. *)
Lemma empty_error_list_is_raised :
  Sample.respond_empty_errors (text_exists_query Sample.self "a") !! "errors"
  = Some (VList [])
  ∧ (text_exists Sample.respond_empty_errors Sample.self "a" Sample.fresh).1
    = Raise (ValueError "Error during query: " [VList []])
  ∧ (search_by_vector "text" Sample.respond_empty_errors Sample.self [] Sample.filtered
       Sample.fresh).1
    = Raise (ValueError "Error during query: " [VList []])
  ∧ (search_by_full_text "text" Sample.respond_empty_errors Sample.self "a"
       Sample.with_id Sample.fresh).1
    = Raise (ValueError "Error during query: " [VList []]).
Proof. repeat split; vm_compute; reflexivity. Qed.

Lemma query_errors_surface_once_witness :
  vector_search_kwargs Sample.filtered
  ∧ full_text_kwargs Sample.with_id
  ∧ Sample.respond_errors (text_exists_query Sample.self "a") !! "errors"
    = Some Sample.backend_errors
  ∧ text_exists Sample.respond_errors Sample.self "a" Sample.fresh
    = (Raise (ValueError "Error during query: " [Sample.backend_errors]),
       set_executed [text_exists_query Sample.self "a"] Sample.fresh)
  ∧ (search_by_vector "text" Sample.respond_errors Sample.self [] Sample.filtered
       Sample.fresh).1
    = Raise (ValueError "Error during query: " [Sample.backend_errors])
  ∧ no_value_error
      (search_by_full_text "text" Sample.respond_three Sample.self "a" Sample.with_id
         Sample.fresh).1.
Proof.
  assert (Sample.respond_errors (text_exists_query Sample.self "a") !! "errors"
          = Some Sample.backend_errors) as H by (vm_compute; reflexivity).
  split; [exact filtered_is_vector_search_kwargs|].
  split; [exact with_id_is_full_text_kwargs|].
  split; [exact H|].
  pose proof (query_errors_surface_once "text" Sample.respond_errors Sample.self "a"
                [] "a" Sample.filtered Sample.with_id Sample.fresh
                filtered_is_vector_search_kwargs with_id_is_full_text_kwargs)
    as (Hexists & Hvector & _).
  pose proof (query_errors_surface_once "text" Sample.respond_three Sample.self "a"
                [] "a" Sample.filtered Sample.with_id Sample.fresh
                filtered_is_vector_search_kwargs with_id_is_full_text_kwargs)
    as (_ & _ & Hfull).
  unfold surfaces_errors in Hexists, Hvector, Hfull.
  destruct Hexists as (Hstate & Hraise & _).
  destruct Hvector as (_ & Hvraise & _). destruct Hfull as (_ & _ & Hclean).
  split; [|split].
  - destruct (text_exists Sample.respond_errors Sample.self "a" Sample.fresh)
      as [r c'] eqn:E. simpl in Hstate, Hraise.
    by rewrite Hstate, (Hraise _ H).
  - apply Hvraise. vm_compute. reflexivity.
  - apply Hclean. vm_compute. reflexivity.
Defined.

(** C5, as stated, fails: a document whose metadata has an entry under the
    name of the text field is transmitted with that entry in place of its
    text. *)
Lemma metadata_entry_replaces_text :
  page_content Sample.clashing = "alpha"
  ∧ o_data_object
      <$> objects
            (add_texts "text" Sample.every_two Sample.valid_uuid Sample.uuid_of_doc_id
               Sample.random_uuid Sample.self [Sample.clashing] [] Sample.fresh).2
    = [ {[ "text" := VStr "omega" ]} ].
Proof. split; vm_compute; reflexivity. Qed.

Lemma add_texts_transmits_text_and_serialized_metadata_witness :
  vectors_match Sample.documents []
  ∧ encodable_documents Sample.documents
  ∧ valid_uuids Sample.valid_uuid Sample.uuid_of_doc_id Sample.random_uuid
      Sample.documents
  ∧ batch_encodable Sample.fresh
  ∧ Sample.documents !! 0
    = Some (mkDocument "alpha"
              {[ "doc_id" := VStr "1"; "created" := VDatetime Sample.new_year ]})
  ∧ ∃ o,
      objects
        (add_texts "text" Sample.every_two Sample.valid_uuid Sample.uuid_of_doc_id
           Sample.random_uuid Sample.self Sample.documents [] Sample.fresh).2 !! 0
      = Some o
      ∧ o_data_object o !! "text" = Some (VStr "alpha")
      ∧ o_data_object o !! "created" = Some (VStr "2024-01-02T03:04:05")
      ∧ o_data_object o !! "doc_id" = Some (VStr "1").
Proof.
  split; [exact sample_documents_no_vectors|].
  split; [exact sample_documents_encodable|].
  split; [exact sample_documents_valid_uuids|].
  split; [exact fresh_batch_encodable|].
  split; [reflexivity|].
  destruct (add_texts_transmits_text_and_serialized_metadata "text" Sample.every_two
              Sample.valid_uuid Sample.uuid_of_doc_id Sample.random_uuid Sample.self
              Sample.documents [] Sample.fresh 0
              (mkDocument "alpha"
                 {[ "doc_id" := VStr "1"; "created" := VDatetime Sample.new_year ]})
              sample_documents_no_vectors sample_documents_encodable
              sample_documents_valid_uuids fresh_batch_encodable eq_refl)
    as (o & Ho & Htext & Hmeta & _).
  exists o. split; [exact Ho|].
  split; [exact (Htext ltac:(vm_compute; reflexivity))|].
  split.
  - exact (Hmeta "created" (VDatetime Sample.new_year) ltac:(vm_compute; reflexivity)).
  - exact (Hmeta "doc_id" (VStr "1") ltac:(vm_compute; reflexivity)).
Defined.

(** C6, as stated, fails: the backend holds a class of the collection's
    name, without the text property; [create] does not find its schema
    there, tries to create the class, and raises what the backend answers. *)
Lemma create_raises_on_existing_class :
  class_name_of <$> classes Sample.conflicting = [Some (_collection_name Sample.self)]
  ∧ vectors_match Sample.documents []
  ∧ create "text" Sample.every_two Sample.valid_uuid Sample.uuid_of_doc_id
      Sample.random_uuid Sample.self Sample.documents [] Sample.conflicting
    = (Raise UnexpectedStatusCodeException, Sample.conflicting).
Proof.
  split; [vm_compute; reflexivity|]. split; [by left|]. vm_compute. reflexivity.
Qed.

Lemma create_is_idempotent_witness :
  vectors_match Sample.documents []
  ∧ encodable_documents Sample.documents
  ∧ valid_uuids Sample.valid_uuid Sample.uuid_of_doc_id Sample.random_uuid
      Sample.documents
  ∧ batch_encodable Sample.fresh
  ∧ capitalize_first_letter (_collection_name Sample.lower) = Ok "Vector_index_a_Node"
  ∧ has_class (Some (_collection_name Sample.lower)) (classes Sample.fresh) = false
  ∧ ∃ c1 c2,
      create "text" Sample.every_two Sample.valid_uuid Sample.uuid_of_doc_id
        Sample.random_uuid Sample.lower Sample.documents [] Sample.fresh = (Ok (), c1)
      ∧ classes c1 = classes Sample.fresh ++ [_default_schema "Vector_index_a_Node"]
      ∧ create "text" Sample.every_two Sample.valid_uuid Sample.uuid_of_doc_id
          Sample.random_uuid Sample.lower Sample.documents [] c1 = (Ok (), c2)
      ∧ classes c2 = classes c1
      ∧ length (filter (fun loaded => class_name_of loaded = Some "Vector_index_a_Node")
                       (classes c2)) = 1.
Proof.
  split; [exact sample_documents_no_vectors|].
  split; [exact sample_documents_encodable|].
  split; [exact sample_documents_valid_uuids|].
  split; [exact fresh_batch_encodable|].
  split; [reflexivity|]. split; [reflexivity|].
  exact (proj2 (proj2 (create_is_idempotent "text" Sample.every_two Sample.valid_uuid
                         Sample.uuid_of_doc_id Sample.random_uuid Sample.lower
                         Sample.documents Sample.documents [] [] Sample.fresh
                         sample_documents_no_vectors sample_documents_no_vectors
                         sample_documents_encodable sample_documents_encodable
                         sample_documents_valid_uuids sample_documents_valid_uuids
                         fresh_batch_encodable))
           "Vector_index_a_Node" eq_refl eq_refl).
Defined.

Lemma empty_endpoint_fails_before_connecting_witness :
  (lift (WeaviateConfig_new "" (Some "secret") None)
   ≫= (fun config => __init__ Sample.empty_backend "Vector_index_a_Node" config [])) []
  = (Raise (ValidationError [ValueError "config WEAVIATE_ENDPOINT is required" []]), [])
  ∧ WeaviateConfig_new "http://weaviate:8080" (Some "secret") None = Ok Sample.config
  ∧ _init_client Sample.no_backend Sample.config []
    = (Raise (ConnectionError "Vector database connection error"),
       ["http://weaviate:8080"])
  ∧ _init_client Sample.empty_backend
      (mkWeaviateConfig "http://weaviate:8080" None 100) []
    = (Raise TypeError, []).
Proof.
  pose proof (empty_endpoint_fails_before_connecting Sample.empty_backend
                (Some "secret") None "Vector_index_a_Node" [] [])
    as (_ & Hempty & Hvalid & Hkey & _).
  pose proof (empty_endpoint_fails_before_connecting Sample.no_backend
                (Some "secret") None "Vector_index_a_Node" [] [])
    as (_ & _ & _ & Hconnect & _).
  split; [exact Hempty|].
  split; [exact (Hvalid "http://weaviate:8080" ltac:(discriminate))|].
  split.
  - destruct (Hconnect Sample.config) as (_ & Hwith & _).
    destruct (Hwith ltac:(by eexists)) as [Hattempt Hraise].
    destruct (_init_client Sample.no_backend Sample.config []) as [r contacted] eqn:E.
    simpl in Hattempt, Hraise. rewrite Hattempt. f_equal. by apply Hraise.
  - destruct (Hkey (mkWeaviateConfig "http://weaviate:8080" None 100)) as (_ & _ & Hnone).
    exact (Hnone eq_refl).
Defined.

Lemma text_exists_iff_row_witness :
  Sample.respond_three (text_exists_query Sample.self "a") !! "errors" = None
  ∧ data_get (Sample.respond_three (text_exists_query Sample.self "a"))
      (_collection_name Sample.self) = Ok (VList Sample.three_rows)
  ∧ text_exists Sample.respond_three Sample.self "a" Sample.fresh
    = (Ok true, set_executed [text_exists_query Sample.self "a"] Sample.fresh).
Proof.
  assert (Sample.respond_three (text_exists_query Sample.self "a") !! "errors" = None)
    as H1 by (vm_compute; reflexivity).
  assert (data_get (Sample.respond_three (text_exists_query Sample.self "a"))
            (_collection_name Sample.self) = Ok (VList Sample.three_rows))
    as H2 by (vm_compute; reflexivity).
  split; [exact H1|]. split; [exact H2|].
  exact (proj1 (text_exists_iff_row Sample.respond_three Sample.self "a" Sample.fresh
                  Sample.three_rows H1 H2)).
Defined.



Lemma search_by_full_text_ignores_search_distance_witness :
  delete "search_distance" Sample.with_id_near
  = delete "search_distance" Sample.with_id_far
  ∧ search_by_full_text "text" Sample.respond_three Sample.self "a"
      Sample.with_id_near Sample.fresh
    = search_by_full_text "text" Sample.respond_three Sample.self "a"
        Sample.with_id_far Sample.fresh
  ∧ length
      <$> (search_by_full_text "text" Sample.respond_three Sample.self "a"
             Sample.with_id_far Sample.fresh).1
    = Ok 3.
Proof.
  assert (delete "search_distance" Sample.with_id_near
          = delete "search_distance" Sample.with_id_far)
    as H by (vm_compute; reflexivity).
  split; [exact H|].
  split; [|vm_compute; reflexivity].
  exact (proj2 (search_by_full_text_ignores_search_distance "text" Sample.respond_three
                  Sample.self "a" Sample.with_id_near Sample.with_id_far H)
           Sample.fresh).
Defined.

(** *** Evaluations *)

Example isoformat_naive :
  isoformat (Datetime 2024 1 2 3 4 5 0 None) = "2024-01-02T03:04:05".
Proof. reflexivity. Qed.

Example isoformat_aware :
  isoformat (Datetime 2024 12 31 23 59 58 250 (Some (-330)%Z))
  = "2024-12-31T23:59:58.000250-05:30".
Proof. reflexivity. Qed.

Example add_texts_sample_ids :
  (add_texts "text" Sample.every_two Sample.valid_uuid Sample.uuid_of_doc_id
     Sample.random_uuid Sample.self Sample.documents [] Sample.fresh).1
  = Ok ["6ba7b810-9dad-51d1-80b4-00c04fd430c1";
        "16fd2706-8baf-433b-82eb-8c7fada84701";
        "6ba7b810-9dad-51d1-80b4-00c04fd430c3"].
Proof. vm_compute. reflexivity. Qed.

Example add_texts_short_vectors_raise :
  (add_texts "text" Sample.every_two Sample.valid_uuid Sample.uuid_of_doc_id
     Sample.random_uuid Sample.self Sample.documents [[1 # 2]] Sample.fresh).1
  = Raise IndexError.
Proof. vm_compute. reflexivity. Qed.

Example search_by_vector_default_threshold :
  length
    <$> (search_by_vector "text" Sample.respond_three Sample.self [] Sample.filtered
           Sample.fresh).1
  = Ok 3.
Proof. vm_compute. reflexivity. Qed.

Example create_on_covering_class :
  (create "text" Sample.every_two Sample.valid_uuid Sample.uuid_of_doc_id
     Sample.random_uuid Sample.self Sample.documents [] Sample.holding).1
  = Ok ().
Proof. vm_compute. reflexivity. Qed.
(** *** Collection names, continued *)

Lemma list_ascii_of_append (a b : string) :
  String.list_ascii_of_string (a +:+ b)
  = String.list_ascii_of_string a ++ String.list_ascii_of_string b.
Proof.
  induction a as [|x a IH]; [done|].
  rewrite append_cons. simpl. by rewrite IH.
Qed.

Lemma replace_removes (old new : ascii) (s : string) :
  old ≠ new → old ∉ String.list_ascii_of_string (replace old new s).
Proof.
  intros Hne. induction s as [|x s IH]; simpl; [apply not_elem_of_nil|].
  apply not_elem_of_cons. split; [|done].
  destruct (Ascii.eqb_spec x old); congruence.
Qed.

Lemma replace_length (old new : ascii) (s : string) :
  String.length (replace old new s) = String.length s.
Proof. induction s as [|x s IH]; simpl; [done | by rewrite IH]. Qed.

Lemma append_marker_neq (s : string) : s +:+ "_Node" ≠ s.
Proof.
  intros H. apply (f_equal String.length) in H.
  rewrite length_append in H. simpl in H. lia.
Qed.

(** X1: A name generated from the dataset id holds no hyphen, whatever the id,
    and is 18 characters longer than the id. *)
Theorem generated_name_has_no_hyphen (dataset : Dataset.t) :
  truthy (Dataset.index_struct_dict dataset) = false →
  ∃ name,
    get_collection_name dataset = Ok name
    ∧ ("-"%char ∉ String.list_ascii_of_string name)
    ∧ String.length name = String.length (Dataset.id dataset) + 18.
Proof.
  intros H. eexists. split; [unfold get_collection_name; by rewrite H|].
  split.
  - rewrite !list_ascii_of_append, !elem_of_app.
    intros [Hin | [Hin | Hin]].
    + vm_compute in Hin.
      repeat (apply elem_of_cons in Hin as [? | Hin]; [discriminate|]).
      by apply elem_of_nil in Hin.
    + by apply replace_removes in Hin.
    + vm_compute in Hin.
      repeat (apply elem_of_cons in Hin as [? | Hin]; [discriminate|]).
      by apply elem_of_nil in Hin.
  - rewrite !length_append, replace_length. simpl. lia.
Qed.

Lemma generated_name_has_no_hyphen_witness :
  truthy (Dataset.index_struct_dict (Dataset.mk "7f3a-11ee-b962" VNone)) = false
  ∧ ∃ name,
      get_collection_name (Dataset.mk "7f3a-11ee-b962" VNone) = Ok name
      ∧ ("-"%char ∉ String.list_ascii_of_string name).
Proof.
  split; [reflexivity|].
  destruct (generated_name_has_no_hyphen (Dataset.mk "7f3a-11ee-b962" VNone) eq_refl)
    as (name & Hname & Hfree & _).
  by exists name.
Defined.

(** X2: What [get_collection_name] does with a stored structure that is not as
    expected: an empty dictionary counts as no structure at all and the name
    is generated from the id; a non-empty one without [vector_store], or
    whose [vector_store] has no [class_prefix], raises [KeyError] for the
    missing key; a [class_prefix] that is not a string raises
    [AttributeError]. *)
Theorem get_collection_name_malformed_structure (dataset : Dataset.t) (d : dict) :
  Dataset.index_struct_dict dataset = VDict d →
  (d = ∅ →
   get_collection_name dataset
   = Ok ("Vector_index_" +:+ replace "-" "_" (Dataset.id dataset) +:+ "_Node"))
  ∧ (d ≠ ∅ → d !! "vector_store" = None →
     get_collection_name dataset = Raise (KeyError "vector_store"))
  ∧ (∀ vector_store,
       d !! "vector_store" = Some (VDict vector_store) →
       vector_store !! "class_prefix" = None →
       get_collection_name dataset = Raise (KeyError "class_prefix"))
  ∧ (∀ vector_store,
       d !! "vector_store" = Some vector_store →
       (∀ vs, vector_store ≠ VDict vs) →
       get_collection_name dataset = Raise TypeError)
  ∧ (∀ vector_store prefix,
       d !! "vector_store" = Some (VDict vector_store) →
       vector_store !! "class_prefix" = Some prefix →
       (∀ s, prefix ≠ VStr s) →
       get_collection_name dataset = Raise AttributeError).
Proof.
  intros Hd. unfold get_collection_name. rewrite Hd.
  split; [|split; [|split; [|split]]].
  - intros ->. done.
  - intros Hne Hvs. simpl. rewrite bool_decide_eq_false_2 by done. simpl.
    by rewrite Hvs.
  - intros vs Hvs Hcp. rewrite (truthy_dict_lookup _ _ _ Hvs). simpl.
    rewrite Hvs. simpl. by rewrite Hcp.
  - intros vs Hvs Hnd. rewrite (truthy_dict_lookup _ _ _ Hvs). simpl.
    rewrite Hvs. simpl. destruct vs; try done. by destruct (Hnd d0).
  - intros vs prefix Hvs Hcp Hns. rewrite (truthy_dict_lookup _ _ _ Hvs). simpl.
    rewrite Hvs. simpl. rewrite Hcp. simpl.
    destruct prefix; try done. by destruct (Hns s).
Qed.

Lemma get_collection_name_malformed_structure_witness :
  get_collection_name (Dataset.mk "a-b" (VDict ∅)) = Ok "Vector_index_a_b_Node"
  ∧ get_collection_name (Dataset.mk "a-b" (VDict Sample.structure_without_store))
    = Raise (KeyError "vector_store")
  ∧ get_collection_name (Dataset.mk "a-b" (VDict Sample.structure_without_prefix))
    = Raise AttributeError.
Proof.
  pose proof (get_collection_name_malformed_structure
                (Dataset.mk "a-b" (VDict ∅)) ∅ eq_refl) as (Hempty & _).
  pose proof (get_collection_name_malformed_structure
                (Dataset.mk "a-b" (VDict Sample.structure_without_store))
                Sample.structure_without_store eq_refl) as (_ & Hmissing & _).
  pose proof (get_collection_name_malformed_structure
                (Dataset.mk "a-b" (VDict Sample.structure_without_prefix))
                Sample.structure_without_prefix eq_refl)
    as (_ & _ & _ & _ & Hprefix).
  split; [exact (Hempty eq_refl)|]. split.
  - apply Hmissing; [|vm_compute; reflexivity].
    intros H. apply (f_equal (fun m : dict => m !! "type")) in H.
    vm_compute in H. discriminate.
  - apply (Hprefix {[ "class_prefix" := VNone ]} VNone);
      [vm_compute; reflexivity | vm_compute; reflexivity | discriminate].
Defined.

(** X3: The index structure an adapter publishes leads back to its collection
    name exactly when that name ends with the marker; otherwise the marker is
    appended on the way back. *)
Theorem to_index_struct_round_trip (self : WeaviateVector) (id : string) :
  get_collection_name (Dataset.mk id (VDict (to_index_struct self)))
  = Ok (if endswith (_collection_name self) "_Node"
        then _collection_name self
        else _collection_name self +:+ "_Node")
  ∧ (get_collection_name (Dataset.mk id (VDict (to_index_struct self)))
     = Ok (_collection_name self)
     ↔ endswith (_collection_name self) "_Node" = true).
Proof.
  assert (get_collection_name (Dataset.mk id (VDict (to_index_struct self)))
          = Ok (if endswith (_collection_name self) "_Node"
                then _collection_name self
                else _collection_name self +:+ "_Node")) as Hrun.
  { by apply (get_collection_name_stored _
                (VDict {[ "class_prefix" := VStr (_collection_name self) ]})). }
  split; [done|]. rewrite Hrun.
  destruct (endswith (_collection_name self) "_Node"); split; [done | done | | done].
  intros H.
  assert (_collection_name self +:+ "_Node" = _collection_name self) as H'
    by congruence.
  exact (match append_marker_neq _ H' with end).
Qed.

(** *** The batch writer, continued *)

Section WritesMore.
Variable TEXT_KEY : string.
Variable batch_ready : Z → list data_object → bool.
Variable valid_uuid : string → bool.
Variable uuid_of_doc_id : value → string.
Variable random_uuid : nat → string.

(** Sending the batch stores all of it or none of it, behind what is stored,
    and leaves nothing waiting. *)
Lemma flush_appends (c : client) :
  ∃ r os,
    flush c = (r, set_batch (objects c ++ os) [] c)
    ∧ length os ≤ length (batch c).
Proof.
  unfold flush. destruct (forallb object_encodable (batch c)).
  - by exists (Ok ()), (batch c).
  - exists (Raise TypeError), []. rewrite app_nil_r. split; [done | simpl; lia].
Qed.

(** Whether it accepts the object or not, [add_data_object] keeps what is
    stored in place and stores or holds at most one object more. *)
Lemma add_data_object_appends (o : data_object) (c : client) :
  ∃ r os b,
    add_data_object batch_ready valid_uuid o c = (r, set_batch (objects c ++ os) b c)
    ∧ length os + length b ≤ length (batch c) + 1.
Proof.
  unfold add_data_object. destruct (valid_uuid (o_uuid o)).
  - simpl. destruct (batch_ready _ _).
    + destruct (flush_appends (set_batch (objects c) (batch c ++ [o]) c))
        as (r & os & -> & Hlen).
      exists r, os, []. split; [by destruct c|].
      simpl in *. rewrite length_app in Hlen. simpl in Hlen. lia.
    + exists (Ok ()), [], (batch c ++ [o]). rewrite app_nil_r. split; [done|].
      rewrite length_app. simpl. lia.
  - eexists _, [], (batch c). rewrite app_nil_r, set_batch_id. split; [done | simpl; lia].
Qed.

(** Whatever the inputs and whether it returns or raises, the loop keeps what
    is stored in place and stores or holds at most one object more per text. *)
Lemma add_texts_loop_appends (self : WeaviateVector) (uuids : list string)
    (metadatas : list dict) (embeddings : list (list Q)) (texts : list string) :
  ∀ (i : nat) (ids : list string) (c : client),
    ∃ r os b,
      add_texts_loop TEXT_KEY batch_ready valid_uuid self uuids metadatas embeddings
        i texts ids c
      = (r, set_batch (objects c ++ os) b c)
      ∧ length os + length b ≤ length (batch c) + length texts.
Proof.
  induction texts as [|text texts IH]; intros i ids c.
  - exists (Ok ids), [], (batch c). simpl.
    rewrite app_nil_r, set_batch_id. split; [done | lia].
  - assert (∀ e : exn, ∃ (r : result (list string)) os b,
              (Raise e : result (list string), c) = (r, set_batch (objects c ++ os) b c)
              ∧ length os + length b ≤ length (batch c) + S (length texts)) as Hstop.
    { intros e. exists (Raise e), [], (batch c).
      rewrite app_nil_r, set_batch_id. simpl. split; [done | lia]. }
    simpl. unfold mbind at 1, State_bind at 1, lift at 1.
    destruct (index metadatas i) as [meta|e]; [|apply Hstop].
    unfold mbind at 1, State_bind at 1, lift at 1.
    destruct (index uuids i) as [uuid|e]; [|apply Hstop].
    unfold mbind at 1, State_bind at 1, lift at 1.
    destruct (match embeddings with
              | [] => Ok None
              | _ :: _ => Some <$> index embeddings i
              end) as [vector|e]; [|apply Hstop].
    unfold mbind at 1, State_bind at 1.
    destruct (add_data_object_appends
                (DataObject (data_properties_of TEXT_KEY text meta)
                   (_collection_name self) uuid vector) c)
      as ([[]|e] & os1 & b1 & -> & Hlen1).
    + unfold mbind at 1, State_bind at 1, lift at 1.
      destruct (IH (S i) (ids ++ [uuid]) (set_batch (objects c ++ os1) b1 c))
        as (r & os & b & -> & Hlen).
      exists r, (os1 ++ os), b. split.
      * destruct c; simpl. by rewrite <- app_assoc.
      * destruct c; simpl in *. rewrite length_app. lia.
    + exists (Raise e), os1, b1. split; [done | simpl; lia].
Qed.

(** With vectors given but fewer than the documents, the loop writes the
    documents that have a vector and raises at the first one that has none. *)
Lemma add_texts_loop_short (self : WeaviateVector) (documents : list Document)
    (embeddings : list (list Q)) (texts : list string) :
  embeddings ≠ [] →
  length embeddings < length documents →
  encodable_documents documents →
  valid_uuids valid_uuid uuid_of_doc_id random_uuid documents →
  ∀ (i : nat) (ids : list string) (c : client),
    i ≤ length embeddings →
    texts = drop i (page_content <$> documents) →
    batch_encodable c →
    ∃ os b,
      add_texts_loop TEXT_KEY batch_ready valid_uuid self
        (_get_uuids uuid_of_doc_id random_uuid documents)
        (metadata <$> documents) embeddings i texts ids c
      = (Raise IndexError, set_batch os b c)
      ∧ os ++ b
        = objects c ++ batch c
          ++ drop i (take (length embeddings)
                       (data_objects_of TEXT_KEY uuid_of_doc_id random_uuid self
                          documents embeddings))
      ∧ forallb object_encodable b = true.
Proof.
  intros Hne Hshort Henc Hval.
  induction texts as [|text texts IH]; intros i ids c Hi Htexts Hb.
  - apply (f_equal length) in Htexts.
    rewrite length_drop, length_fmap in Htexts. simpl in Htexts. lia.
  - apply drop_cons_inv in Htexts as [Htext Htexts].
    apply list_lookup_fmap_Some in Htext as (d & -> & Hd).
    assert (_get_uuids uuid_of_doc_id random_uuid documents !! i
            = Some (match metadata d !! "doc_id" with
                    | Some doc_id => uuid_of_doc_id doc_id
                    | None => random_uuid i
                    end)) as Hu.
    { unfold _get_uuids. by rewrite list_lookup_imap, Hd. }
    simpl. unfold mbind at 1, State_bind at 1, lift at 1, index at 1.
    rewrite list_lookup_fmap, Hd. simpl.
    unfold mbind at 1, State_bind at 1, lift at 1, index at 1. rewrite Hu.
    unfold mbind at 1, State_bind at 1, lift at 1.
    destruct (decide (i = length embeddings)) as [->|Hlt].
    + assert (match embeddings with
              | [] => Ok None
              | _ :: _ => Some <$> index embeddings (length embeddings)
              end = Raise IndexError) as ->.
      { unfold index. rewrite lookup_ge_None_2 by lia. by destruct embeddings. }
      exists (objects c), (batch c). rewrite set_batch_id. split; [done|].
      split; [|done].
      rewrite drop_ge, app_nil_r; [done|]. rewrite length_take. lia.
    + destruct (lookup_lt_is_Some_2 embeddings i) as [e He]; [lia|].
      assert (match embeddings with
              | [] => Ok None
              | _ :: _ => Some <$> index embeddings i
              end = Ok (embeddings !! i)) as ->.
      { unfold index. rewrite He. by destruct embeddings. }
      assert (take (length embeddings)
                (data_objects_of TEXT_KEY uuid_of_doc_id random_uuid self documents
                   embeddings) !! i
              = Some (DataObject
                        (data_properties_of TEXT_KEY (page_content d) (metadata d))
                        (_collection_name self)
                        (match metadata d !! "doc_id" with
                         | Some doc_id => uuid_of_doc_id doc_id
                         | None => random_uuid i
                         end)
                        (embeddings !! i))) as Ho.
      { rewrite lookup_take_lt by lia.
        unfold data_objects_of. by rewrite list_lookup_imap, Hd, Hu. }
      unfold mbind at 1, State_bind at 1.
      destruct (add_data_object_run batch_ready valid_uuid
                  (DataObject (data_properties_of TEXT_KEY (page_content d) (metadata d))
                     (_collection_name self)
                     (match metadata d !! "doc_id" with
                      | Some doc_id => uuid_of_doc_id doc_id
                      | None => random_uuid i
                      end)
                     (embeddings !! i)) c) as (os1 & b1 & -> & Hsplit & Hb1).
      { exact (proj1 (Forall_lookup _ _) Hval i _ Hu). }
      { apply data_properties_of_encodable.
        exact (proj1 (Forall_lookup _ _) Henc i _ Hd). }
      { done. }
      unfold mbind at 1, State_bind at 1, lift at 1, index at 1. rewrite Hu.
      destruct (IH (S i) (ids ++ [match metadata d !! "doc_id" with
                                  | Some doc_id => uuid_of_doc_id doc_id
                                  | None => random_uuid i
                                  end]) (set_batch os1 b1 c))
        as (os & b & -> & Hfinal & Hbfinal);
        [lia | done | exact Hb1 |].
      exists os, b. split; [by destruct c|]. split; [|done].
      rewrite Hfinal. simpl. rewrite (drop_S _ _ _ Ho).
      rewrite (app_assoc os1), Hsplit. by rewrite <- !app_assoc.
Qed.

End WritesMore.

(** X4: The loop that fills the properties of one document has a closed form:
    the normalized metadata laid over the text entry, so that a metadata
    entry wins over the text when both use the same name; the keys sent are
    the metadata keys and the text key. *)
Theorem data_properties_of_closed_form (TEXT_KEY text : string) (meta : dict) :
  data_properties_of TEXT_KEY text meta
  = (_json_serializable <$> meta) ∪ {[ TEXT_KEY := VStr text ]}
  ∧ dom (data_properties_of TEXT_KEY text meta) = dom meta ∪ {[ TEXT_KEY ]}
  ∧ (∀ v, meta !! TEXT_KEY = Some v →
       data_properties_of TEXT_KEY text meta !! TEXT_KEY = Some (_json_serializable v)).
Proof.
  assert (data_properties_of TEXT_KEY text meta
          = (_json_serializable <$> meta) ∪ {[ TEXT_KEY := VStr text ]}) as Hform.
  { apply map_eq. intros k.
    rewrite data_properties_of_lookup, lookup_union, lookup_fmap.
    destruct (meta !! k); simpl; [|by rewrite (left_id_L None _)].
    by destruct (_ !! k). }
  split; [done|]. split.
  - by rewrite Hform, dom_union_L, dom_fmap_L, dom_singleton_L.
  - intros v Hv. by rewrite data_properties_of_lookup, Hv.
Qed.

(** X5: For a write that goes through, the i-th document is written into the
    adapter's collection under the i-th returned id, with the i-th vector
    when vectors are given and with none when they are absent. *)
Theorem add_texts_attaches_vectors (TEXT_KEY : string)
    (batch_ready : Z → list data_object → bool) (valid_uuid : string → bool)
    (uuid_of_doc_id : value → string) (random_uuid : nat → string)
    (self : WeaviateVector) (documents : list Document)
    (embeddings : list (list Q)) (c : client) (i : nat) (d : Document) :
  vectors_match documents embeddings →
  encodable_documents documents →
  valid_uuids valid_uuid uuid_of_doc_id random_uuid documents →
  batch_encodable c →
  documents !! i = Some d →
  ∃ ids c' o,
    add_texts TEXT_KEY batch_ready valid_uuid uuid_of_doc_id random_uuid self
      documents embeddings c
    = (Ok ids, c')
    ∧ objects c' !! (length (objects c ++ batch c) + i) = Some o
    ∧ o_class_name o = _collection_name self
    ∧ ids !! i = Some (o_uuid o)
    ∧ o_vector o = embeddings !! i
    ∧ (embeddings ≠ [] → is_Some (o_vector o))
    ∧ length (objects c') = length (objects c ++ batch c) + length documents.
Proof.
  intros Hvec Henc Hval Hb Hd. rewrite add_texts_run by done.
  eexists _, _, _. split; [done|].
  cbn [set_batch objects]. rewrite (app_assoc (objects c)).
  split.
  { rewrite lookup_app_r by lia.
    replace (length (objects c ++ batch c) + i - length (objects c ++ batch c)) with i
      by lia.
    unfold data_objects_of. by rewrite list_lookup_imap, Hd. }
  simpl. split; [done|].
  assert (_get_uuids uuid_of_doc_id random_uuid documents !! i
          = Some (match metadata d !! "doc_id" with
                  | Some doc_id => uuid_of_doc_id doc_id
                  | None => random_uuid i
                  end)) as Hu.
  { unfold _get_uuids. by rewrite list_lookup_imap, Hd. }
  split; [by rewrite Hu|]. split; [done|]. split.
  - intros Hne. destruct Hvec as [->|Hle]; [done|].
    apply lookup_lt_is_Some_2. apply lookup_lt_Some in Hd. lia.
  - rewrite length_app. unfold data_objects_of. by rewrite length_imap.
Qed.

(** X6: With vectors given but fewer than the documents, and documents the
    client accepts, [add_texts] raises [IndexError]; the documents that have
    a vector are written all the same and stay written, and nothing is left
    in the batch. *)
Theorem add_texts_short_vectors (TEXT_KEY : string)
    (batch_ready : Z → list data_object → bool) (valid_uuid : string → bool)
    (uuid_of_doc_id : value → string) (random_uuid : nat → string)
    (self : WeaviateVector) (documents : list Document)
    (embeddings : list (list Q)) (c : client) :
  embeddings ≠ [] →
  length embeddings < length documents →
  encodable_documents documents →
  valid_uuids valid_uuid uuid_of_doc_id random_uuid documents →
  batch_encodable c →
  add_texts TEXT_KEY batch_ready valid_uuid uuid_of_doc_id random_uuid self documents
    embeddings c
  = (Raise IndexError,
     set_batch
       (objects c ++ batch c
        ++ take (length embeddings)
             (data_objects_of TEXT_KEY uuid_of_doc_id random_uuid self documents
                embeddings))
       [] c)
  ∧ length (take (length embeddings)
              (data_objects_of TEXT_KEY uuid_of_doc_id random_uuid self documents
                 embeddings)) = length embeddings.
Proof.
  intros Hne Hshort Henc Hval Hb. split.
  - unfold add_texts, with_batch.
    destruct (add_texts_loop_short TEXT_KEY batch_ready valid_uuid uuid_of_doc_id
                random_uuid self documents embeddings (page_content <$> documents)
                Hne Hshort Henc Hval 0 [] c ltac:(lia) eq_refl Hb)
      as (os & b & -> & Hsplit & Hbfinal).
    unfold flush. simpl. rewrite Hbfinal, Hsplit. by destruct c.
  - rewrite length_take. unfold data_objects_of. rewrite length_imap. lia.
Qed.

(** X7: Whatever its arguments, and whether it returns or raises, [add_texts]
    leaves the batch empty, keeps every object stored before it in place and
    in order, stores no more than what was waiting and one object per
    document, and touches neither the schema, nor the batch configuration,
    nor the queries executed. *)
Theorem add_texts_only_appends (TEXT_KEY : string)
    (batch_ready : Z → list data_object → bool) (valid_uuid : string → bool)
    (uuid_of_doc_id : value → string) (random_uuid : nat → string)
    (self : WeaviateVector) (documents : list Document)
    (embeddings : list (list Q)) (c : client) :
  ∃ r new,
    add_texts TEXT_KEY batch_ready valid_uuid uuid_of_doc_id random_uuid self documents
      embeddings c
    = (r, set_batch (objects c ++ new) [] c)
    ∧ length new ≤ length (batch c) + length documents.
Proof.
  unfold add_texts, with_batch.
  destruct (add_texts_loop_appends TEXT_KEY batch_ready valid_uuid self
              (_get_uuids uuid_of_doc_id random_uuid documents)
              (metadata <$> documents) embeddings (page_content <$> documents) 0 [] c)
    as (r & os & b & -> & Hlen).
  rewrite length_fmap in Hlen.
  destruct (flush_appends (set_batch (objects c ++ os) b c)) as (r' & os' & -> & Hlen').
  exists (match r' with Ok _ => r | Raise e => Raise e end), (os ++ os').
  split.
  - destruct c, r'; simpl; by rewrite <- app_assoc.
  - destruct c; simpl in *. rewrite length_app. lia.
Qed.

(** X8: When the backend holds a class of the collection's name that does not
    cover the default schema, [create] raises what the backend answers to the
    attempt to create the class again, before any document is written: the
    state is left as it was. *)
Theorem create_conflicting_class (TEXT_KEY : string)
    (batch_ready : Z → list data_object → bool) (valid_uuid : string → bool)
    (uuid_of_doc_id : value → string) (random_uuid : nat → string)
    (self : WeaviateVector) (texts : list Document)
    (embeddings : list (list Q)) (c : client) :
  existsb (covers (_default_schema (_collection_name self))) (classes c) = false →
  has_class (Some (_collection_name self)) (classes c) = true →
  create TEXT_KEY batch_ready valid_uuid uuid_of_doc_id random_uuid self texts
    embeddings c
  = (Raise UnexpectedStatusCodeException, c).
Proof.
  intros Hnot Hhas.
  assert (∃ m, capitalize_first_letter (_collection_name self) = Ok m) as [m Hm].
  { unfold has_class in Hhas. simpl in Hhas.
    destruct (capitalize_first_letter (_collection_name self)) as [m|]; [by exists m|].
    exfalso. clear -Hhas. induction (classes c); simpl in Hhas; [done | auto]. }
  unfold create, schema_contains, mbind, State_bind.
  rewrite (compare_class_sets_covers _ _ _ m (class_name_of_default_schema _) Hm).
  rewrite Hnot. simpl. unfold schema_create_class.
  by rewrite class_name_of_default_schema, Hm, Hhas.
Qed.

(** X9: Nothing [create] does is undone when the write fails: with vectors
    given but fewer than the documents, on a backend without the class,
    [create] raises [IndexError] and leaves behind the new class, stored
    under the capitalized name, and the documents that had a vector. *)
Theorem create_keeps_schema_when_write_fails (TEXT_KEY : string)
    (batch_ready : Z → list data_object → bool) (valid_uuid : string → bool)
    (uuid_of_doc_id : value → string) (random_uuid : nat → string)
    (self : WeaviateVector) (texts : list Document)
    (embeddings : list (list Q)) (c : client) (name : string) :
  embeddings ≠ [] →
  length embeddings < length texts →
  encodable_documents texts →
  valid_uuids valid_uuid uuid_of_doc_id random_uuid texts →
  batch_encodable c →
  capitalize_first_letter (_collection_name self) = Ok name →
  has_class (Some (_collection_name self)) (classes c) = false →
  create TEXT_KEY batch_ready valid_uuid uuid_of_doc_id random_uuid self texts
    embeddings c
  = (Raise IndexError,
     set_batch
       (objects c ++ batch c
        ++ take (length embeddings)
             (data_objects_of TEXT_KEY uuid_of_doc_id random_uuid self texts embeddings))
       []
       (set_classes (classes c ++ [_default_schema name]) c)).
Proof.
  intros Hne Hshort Henc Hval Hb Hname Habs.
  unfold create, schema_contains, mbind, State_bind.
  rewrite (compare_class_sets_covers _ _ _ name (class_name_of_default_schema _) Hname).
  rewrite absent_not_contained by by rewrite class_name_of_default_schema.
  simpl. unfold schema_create_class.
  rewrite class_name_of_default_schema, Hname, Habs, default_schema_stored.
  destruct (add_texts_short_vectors TEXT_KEY batch_ready valid_uuid uuid_of_doc_id
              random_uuid self texts embeddings
              (set_classes (classes c ++ [_default_schema name]) c)
              Hne Hshort Henc Hval ltac:(by destruct c)) as [-> _].
  by destruct c.
Qed.

(** *** The searches and the existence check, continued *)

Section SearchesMore.
Variable TEXT_KEY : string.
Variable respond : query → dict.

Lemma search_by_vector_run (self : WeaviateVector) (query_vector : list Q)
    (kwargs : dict) (c : client) (rows : list value) :
  vector_search_kwargs kwargs →
  respond (search_by_vector_query self query_vector kwargs) !! "errors" = None →
  data_get (respond (search_by_vector_query self query_vector kwargs))
           (_collection_name self) = Ok (VList rows) →
  search_by_vector TEXT_KEY respond self query_vector kwargs c
  = (docs_and_scores_loop TEXT_KEY rows [] ≫= (fun ds => threshold_loop kwargs ds []),
     set_executed (executed c ++ [search_by_vector_query self query_vector kwargs]) c).
Proof.
  intros Hkw Herr Hrows. by rewrite search_by_vector_call, Herr, Hrows.
Qed.

Lemma search_by_full_text_run (self : WeaviateVector) (query : string)
    (kwargs : dict) (c : client) (rows : list value) :
  full_text_kwargs kwargs →
  respond (search_by_full_text_query self query kwargs) !! "errors" = None →
  data_get (respond (search_by_full_text_query self query kwargs))
           (_collection_name self) = Ok (VList rows) →
  search_by_full_text TEXT_KEY respond self query kwargs c
  = (full_text_loop TEXT_KEY rows [],
     set_executed (executed c ++ [search_by_full_text_query self query kwargs]) c).
Proof.
  intros Hkw Herr Hrows. by rewrite search_by_full_text_call, Herr, Hrows.
Qed.

(** The threshold plays no part in building the query. *)
Lemma vector_search_kwargs_threshold (kwargs : dict) (t : value) :
  vector_search_kwargs kwargs → vector_search_kwargs (<["score_threshold" := t]> kwargs).
Proof.
  intros [(field & val & Hwhere) Htop]. split.
  - exists field, val. by rewrite lookup_insert_ne.
  - destruct Htop as [Hnone | (z & Hz & Hpos)].
    + left. by rewrite lookup_insert_ne.
    + right. exists z. by rewrite lookup_insert_ne.
Qed.

(** X10: A response without [errors] whose [data], [Get] or collection entry
    cannot be read makes all three operations raise what the failed subscript
    raises ([KeyError] for a missing key), after the one query. *)
Theorem malformed_response_propagates (self : WeaviateVector) (id : string)
    (query_vector : list Q) (query : string) (kwargs_vector kwargs_text : dict)
    (c : client) (e : exn) :
  vector_search_kwargs kwargs_vector →
  full_text_kwargs kwargs_text →
  (respond (text_exists_query self id) !! "errors" = None →
   data_get (respond (text_exists_query self id)) (_collection_name self) = Raise e →
   text_exists respond self id c
   = (Raise e, set_executed (executed c ++ [text_exists_query self id]) c))
  ∧ (respond (search_by_vector_query self query_vector kwargs_vector) !! "errors" = None →
     data_get (respond (search_by_vector_query self query_vector kwargs_vector))
       (_collection_name self) = Raise e →
     search_by_vector TEXT_KEY respond self query_vector kwargs_vector c
     = (Raise e,
        set_executed
          (executed c ++ [search_by_vector_query self query_vector kwargs_vector]) c))
  ∧ (respond (search_by_full_text_query self query kwargs_text) !! "errors" = None →
     data_get (respond (search_by_full_text_query self query kwargs_text))
       (_collection_name self) = Raise e →
     search_by_full_text TEXT_KEY respond self query kwargs_text c
     = (Raise e,
        set_executed
          (executed c ++ [search_by_full_text_query self query kwargs_text]) c))
  ∧ (∀ response : dict, response !! "data" = None →
       data_get response (_collection_name self) = Raise (KeyError "data")).
Proof.
  intros Hv Ht. split; [|split; [|split]].
  - intros Herr Hget. by rewrite text_exists_run, Herr, Hget.
  - intros Herr Hget. by rewrite search_by_vector_call, Herr, Hget.
  - intros Herr Hget. by rewrite search_by_full_text_call, Herr, Hget.
  - intros response Hnone. unfold data_get. simpl. by rewrite Hnone.
Qed.

Lemma full_text_loop_bad_row (good rest : list value) (ps : list (string * dict))
    (d : dict) (acc : list Document) :
  Forall2 (is_text_row TEXT_KEY) good ps →
  d !! TEXT_KEY = None →
  full_text_loop TEXT_KEY (good ++ VDict d :: rest) acc = Raise (KeyError TEXT_KEY).
Proof.
  intros H Hd. revert acc.
  induction H as [|res p good ps (d' & -> & Htext & Hmeta) _ IH]; intros acc; simpl.
  - by rewrite Hd.
  - rewrite Htext. simpl. apply IH.
Qed.

Lemma docs_and_scores_loop_bad_row (good rest : list value)
    (ps : list (string * dict * value)) (bad : value) (e : exn)
    (acc : list (Document * value)) :
  Forall2 (is_vector_row TEXT_KEY) good ps →
  doc_and_score TEXT_KEY bad = Raise e →
  docs_and_scores_loop TEXT_KEY (good ++ bad :: rest) acc = Raise e.
Proof.
  intros H Hbad. revert acc.
  induction H as [|res p good ps Hrow _ IH]; intros acc; simpl.
  - by rewrite Hbad.
  - rewrite (doc_and_score_row _ _ _ Hrow). simpl. apply IH.
Qed.

(** X11: One row without the text field makes a full-text search whose query
    is executed raise [KeyError] for that field: no document is returned,
    not even for the well-formed rows before it. *)
Theorem search_by_full_text_fails_on_row_without_text (self : WeaviateVector)
    (query : string) (kwargs : dict) (c : client) (good rest : list value)
    (ps : list (string * dict)) (d : dict) :
  full_text_kwargs kwargs →
  respond (search_by_full_text_query self query kwargs) !! "errors" = None →
  data_get (respond (search_by_full_text_query self query kwargs))
           (_collection_name self) = Ok (VList (good ++ VDict d :: rest)) →
  Forall2 (is_text_row TEXT_KEY) good ps →
  d !! TEXT_KEY = None →
  search_by_full_text TEXT_KEY respond self query kwargs c
  = (Raise (KeyError TEXT_KEY),
     set_executed (executed c ++ [search_by_full_text_query self query kwargs]) c).
Proof.
  intros Hkw Herr Hrows Hgood Hd.
  rewrite (search_by_full_text_run _ _ _ _ _ Hkw Herr Hrows).
  by rewrite (full_text_loop_bad_row _ _ _ _ _ Hgood Hd).
Qed.

(** X12: One row without the text field, or without [_additional], makes a
    vector search whose query is executed raise [KeyError] for the missing
    key, whatever the threshold: the rows are all read before any score is
    compared. *)
Theorem search_by_vector_fails_on_incomplete_row (self : WeaviateVector)
    (query_vector : list Q) (kwargs : dict) (c : client) (good rest : list value)
    (ps : list (string * dict * value)) (d : dict) :
  vector_search_kwargs kwargs →
  respond (search_by_vector_query self query_vector kwargs) !! "errors" = None →
  data_get (respond (search_by_vector_query self query_vector kwargs))
           (_collection_name self) = Ok (VList (good ++ VDict d :: rest)) →
  Forall2 (is_vector_row TEXT_KEY) good ps →
  (d !! TEXT_KEY = None →
   search_by_vector TEXT_KEY respond self query_vector kwargs c
   = (Raise (KeyError TEXT_KEY),
      set_executed (executed c ++ [search_by_vector_query self query_vector kwargs]) c))
  ∧ (is_Some (d !! TEXT_KEY) → TEXT_KEY ≠ "_additional" → d !! "_additional" = None →
     search_by_vector TEXT_KEY respond self query_vector kwargs c
     = (Raise (KeyError "_additional"),
        set_executed (executed c ++ [search_by_vector_query self query_vector kwargs]) c)).
Proof.
  intros Hkw Herr Hrows Hgood.
  rewrite (search_by_vector_run _ _ _ _ _ Hkw Herr Hrows). split.
  - intros Hd.
    rewrite (docs_and_scores_loop_bad_row _ _ _ (VDict d) (KeyError TEXT_KEY) _ Hgood);
      [done|].
    unfold doc_and_score. simpl. by rewrite Hd.
  - intros [text Htext] Hne Hadd.
    rewrite (docs_and_scores_loop_bad_row _ _ _ (VDict d) (KeyError "_additional") _ Hgood);
      [done|].
    unfold doc_and_score. simpl. rewrite Htext. simpl.
    by rewrite lookup_delete_ne, Hadd.
Qed.

Lemma threshold_loop_not_a_number (kwargs : dict) (ps : list (string * dict * value))
    (acc : list Document) :
  num (dict_get kwargs "score_threshold" (VFloat 0)) = None →
  Forall (fun p => is_Some (num p.2)) ps →
  threshold_loop kwargs ((fun p => (mkDocument p.1.1 p.1.2, p.2)) <$> ps) acc
  = match ps with
    | [] => Ok acc
    | _ => Raise TypeError
    end.
Proof.
  intros Hth Hps. destruct Hps as [|p ps [q Hq] _]; simpl; [done|].
  by rewrite (py_gt_num_other _ _ q).
Qed.

(** X13: A threshold that is not a number (for one, [score_threshold=None]
    passed explicitly) makes a vector search whose rows carry numeric
    distances raise [TypeError] as soon as the response holds a row; with no
    row the result is the empty list. *)
Theorem search_by_vector_threshold_not_a_number (self : WeaviateVector)
    (query_vector : list Q) (kwargs : dict) (c : client) (rows : list value)
    (ps : list (string * dict * value)) :
  vector_search_kwargs kwargs →
  respond (search_by_vector_query self query_vector kwargs) !! "errors" = None →
  data_get (respond (search_by_vector_query self query_vector kwargs))
           (_collection_name self) = Ok (VList rows) →
  Forall2 (is_vector_row TEXT_KEY) rows ps →
  num (dict_get kwargs "score_threshold" (VFloat 0)) = None →
  search_by_vector TEXT_KEY respond self query_vector kwargs c
  = (match rows with
     | [] => Ok []
     | _ => Raise TypeError
     end,
     set_executed (executed c ++ [search_by_vector_query self query_vector kwargs]) c).
Proof.
  intros Hkw Herr Hrows Hps Hth.
  rewrite (search_by_vector_run _ _ _ _ _ Hkw Herr Hrows).
  rewrite (docs_and_scores_loop_rows _ _ _ [] Hps). simpl.
  rewrite (threshold_loop_not_a_number _ _ _ Hth (vector_rows_numeric _ _ _ Hps)).
  by destruct Hps.
Qed.

(** X14: The threshold never reaches the backend, and raising it can only drop
    documents: two vector searches that differ in a numeric [score_threshold]
    alone execute the same query, the documents returned for the higher
    threshold are a sublist of those returned for the lower one, and neither
    call returns more documents than the response has rows. *)
Theorem search_by_vector_monotone_in_threshold (self : WeaviateVector)
    (query_vector : list Q) (kwargs : dict) (c : client) (rows : list value)
    (ps : list (string * dict * value)) (t1 t2 : value) (th1 th2 : Q) :
  vector_search_kwargs kwargs →
  respond (search_by_vector_query self query_vector kwargs) !! "errors" = None →
  data_get (respond (search_by_vector_query self query_vector kwargs))
           (_collection_name self) = Ok (VList rows) →
  Forall2 (is_vector_row TEXT_KEY) rows ps →
  num t1 = Some th1 →
  num t2 = Some th2 →
  (th1 <= th2)%Q →
  search_by_vector_query self query_vector (<["score_threshold" := t1]> kwargs)
  = search_by_vector_query self query_vector kwargs
  ∧ search_by_vector_query self query_vector (<["score_threshold" := t2]> kwargs)
    = search_by_vector_query self query_vector kwargs
  ∧ ∃ docs1 docs2,
      (search_by_vector TEXT_KEY respond self query_vector
         (<["score_threshold" := t1]> kwargs) c).1 = Ok docs1
      ∧ (search_by_vector TEXT_KEY respond self query_vector
           (<["score_threshold" := t2]> kwargs) c).1 = Ok docs2
      ∧ docs2 `sublist_of` docs1
      ∧ length docs1 ≤ length rows.
Proof.
  intros Hkw Herr Hrows Hps Ht1 Ht2 Hle.
  assert (∀ t, search_by_vector_query self query_vector (<["score_threshold" := t]> kwargs)
               = search_by_vector_query self query_vector kwargs) as Hq.
  { intros t. unfold search_by_vector_query, dict_get. by rewrite !lookup_insert_ne. }
  split; [apply Hq|]. split; [apply Hq|].
  assert (∀ t th, num t = Some th →
            (search_by_vector TEXT_KEY respond self query_vector
               (<["score_threshold" := t]> kwargs) c).1
            = Ok (scored <$> filter (fun p => (th < score_of p.2)%Q) ps)) as Hrun.
  { intros t th Ht.
    rewrite (search_by_vector_run _ _ _ _ rows);
      [| by apply vector_search_kwargs_threshold | by rewrite Hq | by rewrite Hq].
    simpl. rewrite (docs_and_scores_loop_rows _ _ _ [] Hps). simpl.
    rewrite (threshold_loop_filter _ th); [done | |by eapply vector_rows_numeric].
    unfold dict_get. by rewrite lookup_insert_eq. }
  eexists _, _. split; [by apply Hrun|]. split; [by apply Hrun|]. split.
  - rewrite <- (list_filter_filter_l (fun p => (th2 < score_of p.2)%Q)
                  (fun p => (th1 < score_of p.2)%Q) ps).
    + apply fmap_sublist, sublist_filter.
    + intros p Hp. by eapply Qle_lt_trans.
  - rewrite length_fmap, (Forall2_length _ _ _ Hps). apply length_filter.
Qed.

(** X15: Every document a vector search returns comes from a row of the
    response: its content is the text of the row, its metadata holds the
    distance of the row under [score] and, under every other name but that
    of the text field, what the row holds, the [_additional] entry included. *)
Theorem search_by_vector_documents_come_from_rows (self : WeaviateVector)
    (query_vector : list Q) (kwargs : dict) (c : client) (rows : list value)
    (ps : list (string * dict * value)) (th : Q) :
  vector_search_kwargs kwargs →
  respond (search_by_vector_query self query_vector kwargs) !! "errors" = None →
  data_get (respond (search_by_vector_query self query_vector kwargs))
           (_collection_name self) = Ok (VList rows) →
  Forall2 (is_vector_row TEXT_KEY) rows ps →
  num (dict_get kwargs "score_threshold" (VFloat 0)) = Some th →
  ∃ docs,
    (search_by_vector TEXT_KEY respond self query_vector kwargs c).1 = Ok docs
    ∧ ∀ doc, doc ∈ docs →
        ∃ d additional distance,
          VDict d ∈ rows
          ∧ d !! TEXT_KEY = Some (VStr (page_content doc))
          ∧ d !! "_additional" = Some additional
          ∧ getitem additional "distance" = Ok distance
          ∧ metadata doc !! "score" = Some distance
          ∧ metadata doc !! "_additional" = Some additional
          ∧ (∀ k, k ≠ "score" → k ≠ TEXT_KEY → metadata doc !! k = d !! k)
          ∧ (TEXT_KEY ≠ "score" → metadata doc !! TEXT_KEY = None).
Proof.
  intros Hkw Herr Hrows Hps Hth. eexists. split.
  { rewrite (search_by_vector_run _ _ _ _ _ Hkw Herr Hrows). simpl.
    rewrite (docs_and_scores_loop_rows _ _ _ [] Hps). simpl.
    apply (threshold_loop_filter _ th); [done | by eapply vector_rows_numeric]. }
  intros doc (p & -> & Hin%list_elem_of_filter)%list_elem_of_fmap.
  destruct Hin as [_ Hin].
  apply list_elem_of_lookup in Hin as [i Hi].
  destruct (Forall2_lookup_r _ _ _ _ _ Hps Hi)
    as (res & Hres & d & additional & -> & Htext & Hmeta & Hadd & Hne & Hdist & _).
  exists d, additional, p.2.
  split; [by eapply list_elem_of_lookup_2|].
  split; [done|]. split; [done|]. split; [done|].
  unfold scored. simpl. rewrite Hmeta.
  split; [apply lookup_insert_eq|].
  split.
  { destruct (decide ("score" = "_additional")) as [Heq|Hneq]; [discriminate|].
    by rewrite lookup_insert_ne, lookup_delete_ne. }
  split.
  - intros k Hk1 Hk2. by rewrite lookup_insert_ne, lookup_delete_ne.
  - intros Hk. by rewrite lookup_insert_ne, lookup_delete_eq.
Qed.

(** X19: What a search asks the client to build is checked before anything is
    sent: a vector search without [where_filter] raises [TypeError], and a
    full-text search without a truthy [additional] selects nothing and
    raises [AttributeError], even when the rest of its arguments is fine; in
    both cases no query is executed and the state is left as it was. *)
Theorem searches_fail_before_the_query (self : WeaviateVector)
    (query_vector : list Q) (query : string) (kwargs : dict) (c : client) :
  top_k_given kwargs →
  (kwargs !! "where_filter" = None →
   search_by_vector TEXT_KEY respond self query_vector kwargs c = (Raise TypeError, c))
  ∧ (kwargs !! "where_filter" = None →
     truthy (dict_get kwargs "additional" VNone) = false →
     search_by_full_text TEXT_KEY respond self query kwargs c
     = (Raise AttributeError, c)).
Proof.
  intros Htop.
  assert (kwargs !! "where_filter" = None → dict_get kwargs "where_filter" VNone = VNone)
    as Hwhere by (intros H; unfold dict_get; by rewrite H).
  split.
  - intros Hnone. unfold search_by_vector, search_by_vector_build, with_near_vector.
    rewrite lookup_singleton_eq, (Hwhere Hnone). reflexivity.
  - intros Hnone Hadd. unfold search_by_full_text, search_by_full_text_build.
    rewrite Hadd, (Hwhere Hnone). simpl.
    rewrite with_limit_top_k by done. reflexivity.
Qed.

End SearchesMore.

(** *** Writing and reading back *)

Lemma delete_text_of_data_properties (TEXT_KEY text : string) (meta : dict) :
  meta !! TEXT_KEY = None →
  delete TEXT_KEY (data_properties_of TEXT_KEY text meta) = _json_serializable <$> meta.
Proof.
  intros Hfree. apply map_eq. intros k.
  destruct (decide (k = TEXT_KEY)) as [->|Hne].
  - by rewrite lookup_delete_eq, lookup_fmap, Hfree.
  - rewrite lookup_delete_ne, data_properties_of_lookup, lookup_fmap by done.
    destruct (meta !! k); [done|]. by rewrite lookup_singleton_ne.
Qed.

(** X16: What [add_texts] writes, full-text search reads back: if the rows of
    an error-free response are the properties a write that went through
    transmitted for documents whose metadata does not use the name of the
    text field, a search whose query is executed returns those documents in
    order, with their content and with their metadata normalized by
    [_json_serializable]. *)
Theorem written_documents_are_read_back (TEXT_KEY : string)
    (batch_ready : Z → list data_object → bool) (valid_uuid : string → bool)
    (uuid_of_doc_id : value → string) (random_uuid : nat → string)
    (respond : query → dict)
    (self : WeaviateVector) (documents : list Document)
    (embeddings : list (list Q)) (query : string) (kwargs : dict) (c : client) :
  vectors_match documents embeddings →
  encodable_documents documents →
  valid_uuids valid_uuid uuid_of_doc_id random_uuid documents →
  batch_encodable c →
  full_text_kwargs kwargs →
  Forall (fun d => metadata d !! TEXT_KEY = None) documents →
  respond (search_by_full_text_query self query kwargs) !! "errors" = None →
  data_get (respond (search_by_full_text_query self query kwargs)) (_collection_name self)
  = Ok (VList ((fun o => VDict (o_data_object o))
               <$> drop (length (objects c ++ batch c))
                     (objects
                        (add_texts TEXT_KEY batch_ready valid_uuid uuid_of_doc_id
                           random_uuid self documents embeddings c).2))) →
  (search_by_full_text TEXT_KEY respond self query kwargs
     (add_texts TEXT_KEY batch_ready valid_uuid uuid_of_doc_id random_uuid self
        documents embeddings c).2).1
  = Ok ((fun d => mkDocument (page_content d) (_json_serializable <$> metadata d))
        <$> documents).
Proof.
  intros Hvec Henc Hval Hb Hkw Hfree Herr Hrows.
  rewrite add_texts_run in Hrows |- * by done.
  cbn [snd set_batch objects] in Hrows.
  rewrite (app_assoc (objects c)), drop_app_length in Hrows.
  rewrite (search_by_full_text_run _ _ _ _ _ _ _ Hkw Herr Hrows). simpl.
  rewrite (full_text_loop_rows TEXT_KEY _
             ((fun d => (page_content d, _json_serializable <$> metadata d))
              <$> documents) []).
  - simpl. by rewrite <- list_fmap_compose.
  - replace ((fun o => VDict (o_data_object o))
             <$> data_objects_of TEXT_KEY uuid_of_doc_id random_uuid self documents
                   embeddings)
      with ((fun d => VDict (data_properties_of TEXT_KEY (page_content d) (metadata d)))
            <$> documents).
    + clear Hrows Hvec Henc Hval.
      induction Hfree as [|d documents Hd _ IH]; [constructor|].
      rewrite !fmap_cons. constructor; [|done].
      eexists. split; [done|]. simpl. split.
      * by rewrite data_properties_of_lookup, Hd, lookup_singleton_eq.
      * symmetry. by apply delete_text_of_data_properties.
    + apply list_eq. intros i. unfold data_objects_of.
      rewrite !list_lookup_fmap, list_lookup_imap.
      by destruct (documents !! i).
Qed.

(** *** Normalization *)

(** X17: [_json_serializable] is idempotent and never returns a date/time value;
    hence metadata that went through it once is transmitted as it is: a
    document read back and written again sends the same properties. *)
Theorem _json_serializable_idempotent (TEXT_KEY text : string) (meta : dict) :
  (∀ v, _json_serializable (_json_serializable v) = _json_serializable v)
  ∧ (∀ v t, _json_serializable v ≠ VDatetime t)
  ∧ data_properties_of TEXT_KEY text (_json_serializable <$> meta)
    = data_properties_of TEXT_KEY text meta.
Proof.
  assert (∀ v, _json_serializable (_json_serializable v) = _json_serializable v)
    as Hidem by (by intros []).
  split; [done|]. split; [by intros []|].
  apply map_eq. intros k.
  rewrite !data_properties_of_lookup, lookup_fmap.
  destruct (meta !! k); simpl; [by rewrite Hidem | done].
Qed.

(** X20: [_json_serializable] looks at the value it is given and no deeper: a
    list or a dictionary passes unchanged with whatever it holds, so a
    date/time value inside one reaches the client as it is, and the
    properties of a document that carries one cannot be encoded. *)
Theorem _json_serializable_is_shallow (TEXT_KEY text key : string) (meta : dict)
    (l : list value) (t : datetime) :
  meta !! key = Some (VList l) →
  VDatetime t ∈ l →
  _json_serializable (VList l) = VList l
  ∧ data_properties_of TEXT_KEY text meta !! key = Some (VList l)
  ∧ encodable (VDict (data_properties_of TEXT_KEY text meta)) = false.
Proof.
  intros Hkey Hin. split; [done|].
  assert (data_properties_of TEXT_KEY text meta !! key = Some (VList l)) as Hsent
    by by rewrite data_properties_of_lookup, Hkey.
  split; [done|].
  apply not_true_is_false. intros Henc%encodable_dict.
  specialize (Henc key (VList l) Hsent). simpl in Henc.
  rewrite forallb_forall in Henc.
  by specialize (Henc (VDatetime t) ltac:(by apply list_elem_of_In)).
Qed.

(** *** Construction *)

(** X18: Building the configuration and then the adapter, with a non-empty
    endpoint behind which a backend answers, an API key and a positive batch
    size or none, contacts that endpoint once and returns the adapter for
    the collection together with a client that holds what the backend
    stores, has nothing batched or executed, and is configured with the
    batch size of the configuration (100 when none is given), dynamic
    batching and three retries. *)
Theorem construction_configures_the_batch
    (backend : string → option (list dict * list data_object))
    (endpoint key : string) (size : option Z)
    (collection_name : string) (attributes : list string) (contacted : list string)
    (cs : list dict) (os : list data_object) :
  endpoint ≠ "" →
  (0 < default 100 size)%Z →
  backend endpoint = Some (cs, os) →
  (lift (WeaviateConfig_new endpoint (Some key) size)
   ≫= (fun config => __init__ backend collection_name config attributes)) contacted
  = (Ok (mkWeaviateVector collection_name attributes,
         Client cs os [] (default 100%Z size) true 3 []),
     contacted ++ [endpoint]).
Proof.
  intros Hne Hsize Hbackend.
  unfold mbind at 1, State_bind at 1, lift, WeaviateConfig_new, validate_config.
  simpl. destruct (String.eqb_spec endpoint ""); [done|]. simpl.
  unfold __init__, mbind, State_bind, _init_client, Client_new. simpl.
  rewrite Hbackend. unfold batch_configure.
  by rewrite (proj2 (Z.leb_gt _ _) Hsize).
Qed.

(** X21: What makes the construction fail after the configuration passed
    validation: without an API key the client raises [TypeError] before it
    contacts the endpoint; with a key and a backend that answers, a batch
    size that is not positive raises [ValueError] once the endpoint has been
    contacted. *)
Theorem construction_failures
    (backend : string → option (list dict * list data_object))
    (endpoint : string) (size : Z)
    (collection_name : string) (attributes : list string) (contacted : list string) :
  endpoint ≠ "" →
  (lift (WeaviateConfig_new endpoint None (Some size))
   ≫= (fun config => __init__ backend collection_name config attributes)) contacted
  = (Raise TypeError, contacted)
  ∧ (∀ key, is_Some (backend endpoint) → (size ≤ 0)%Z →
       (lift (WeaviateConfig_new endpoint (Some key) (Some size))
        ≫= (fun config => __init__ backend collection_name config attributes)) contacted
       = (Raise (ValueError "'batch_size' must be positive, i.e. greater that zero (>0)."
                   []),
          contacted ++ [endpoint])).
Proof.
  intros Hne.
  assert (∀ key, WeaviateConfig_new endpoint key (Some size)
                 = Ok (mkWeaviateConfig endpoint key size)) as Hconfig.
  { intros key. unfold WeaviateConfig_new, validate_config. simpl.
    by destruct (String.eqb_spec endpoint ""). }
  split.
  - unfold mbind at 1, State_bind at 1, lift. by rewrite Hconfig.
  - intros key [[cs os] Hbackend] Hsize.
    unfold mbind at 1, State_bind at 1, lift. rewrite Hconfig.
    unfold __init__, mbind, State_bind, _init_client, Client_new. simpl.
    rewrite Hbackend. unfold batch_configure.
    by rewrite (proj2 (Z.leb_le _ _) Hsize).
Qed.

(** *** The further properties at work on the sample data *)

Lemma add_texts_attaches_vectors_witness :
  vectors_match Sample.documents []
  ∧ encodable_documents Sample.documents
  ∧ valid_uuids Sample.valid_uuid Sample.uuid_of_doc_id Sample.random_uuid
      Sample.documents
  ∧ batch_encodable Sample.fresh
  ∧ ∃ ids c' o,
      add_texts "text" Sample.every_two Sample.valid_uuid Sample.uuid_of_doc_id
        Sample.random_uuid Sample.self Sample.documents [] Sample.fresh = (Ok ids, c')
      ∧ objects c' !! 1 = Some o
      ∧ o_class_name o = "Vector_index_a_Node"
      ∧ ids !! 1 = Some (o_uuid o)
      ∧ o_vector o = None.
Proof.
  split; [exact sample_documents_no_vectors|].
  split; [exact sample_documents_encodable|].
  split; [exact sample_documents_valid_uuids|].
  split; [exact fresh_batch_encodable|].
  destruct (add_texts_attaches_vectors "text" Sample.every_two Sample.valid_uuid
              Sample.uuid_of_doc_id Sample.random_uuid Sample.self Sample.documents []
              Sample.fresh 1 (mkDocument "beta" ∅)
              sample_documents_no_vectors sample_documents_encodable
              sample_documents_valid_uuids fresh_batch_encodable eq_refl)
    as (ids & c' & o & Hrun & Ho & Hclass & Hid & Hvec & _).
  exists ids, c', o. repeat split; assumption.
Defined.

Lemma add_texts_short_vectors_witness :
  Sample.one_vector ≠ []
  ∧ length Sample.one_vector < length Sample.documents
  ∧ encodable_documents Sample.documents
  ∧ valid_uuids Sample.valid_uuid Sample.uuid_of_doc_id Sample.random_uuid
      Sample.documents
  ∧ batch_encodable Sample.fresh
  ∧ (add_texts "text" Sample.every_two Sample.valid_uuid Sample.uuid_of_doc_id
       Sample.random_uuid Sample.self Sample.documents Sample.one_vector Sample.fresh).1
    = Raise IndexError
  ∧ length
      (objects
         (add_texts "text" Sample.every_two Sample.valid_uuid Sample.uuid_of_doc_id
            Sample.random_uuid Sample.self Sample.documents Sample.one_vector
            Sample.fresh).2) = 1.
Proof.
  assert (Sample.one_vector ≠ []) as H1 by discriminate.
  assert (length Sample.one_vector < length Sample.documents) as H2
    by (vm_compute; lia).
  split; [exact H1|]. split; [exact H2|].
  split; [exact sample_documents_encodable|].
  split; [exact sample_documents_valid_uuids|].
  split; [exact fresh_batch_encodable|].
  destruct (add_texts_short_vectors "text" Sample.every_two Sample.valid_uuid
              Sample.uuid_of_doc_id Sample.random_uuid Sample.self Sample.documents
              Sample.one_vector Sample.fresh H1 H2 sample_documents_encodable
              sample_documents_valid_uuids fresh_batch_encodable) as [Hrun Hlen].
  rewrite Hrun. split; [reflexivity|].
  cbn [snd set_batch objects]. rewrite !length_app, Hlen. reflexivity.
Defined.

Lemma create_conflicting_class_witness :
  has_class (Some (_collection_name Sample.self)) (classes Sample.conflicting) = true
  ∧ create "text" Sample.every_two Sample.valid_uuid Sample.uuid_of_doc_id
      Sample.random_uuid Sample.self Sample.documents [] Sample.conflicting
    = (Raise UnexpectedStatusCodeException, Sample.conflicting).
Proof.
  assert (has_class (Some (_collection_name Sample.self)) (classes Sample.conflicting)
          = true) as H by (vm_compute; reflexivity).
  split; [exact H|].
  exact (create_conflicting_class "text" Sample.every_two Sample.valid_uuid
           Sample.uuid_of_doc_id Sample.random_uuid Sample.self Sample.documents []
           Sample.conflicting ltac:(vm_compute; reflexivity) H).
Defined.

Lemma create_keeps_schema_when_write_fails_witness :
  has_class (Some (_collection_name Sample.lower)) (classes Sample.fresh) = false
  ∧ capitalize_first_letter (_collection_name Sample.lower) = Ok "Vector_index_a_Node"
  ∧ (create "text" Sample.every_two Sample.valid_uuid Sample.uuid_of_doc_id
       Sample.random_uuid Sample.lower Sample.documents Sample.one_vector Sample.fresh).1
    = Raise IndexError
  ∧ classes
      (create "text" Sample.every_two Sample.valid_uuid Sample.uuid_of_doc_id
         Sample.random_uuid Sample.lower Sample.documents Sample.one_vector
         Sample.fresh).2
    = [_default_schema "Vector_index_a_Node"].
Proof.
  assert (has_class (Some (_collection_name Sample.lower)) (classes Sample.fresh) = false)
    as H by reflexivity.
  split; [exact H|]. split; [reflexivity|].
  rewrite (create_keeps_schema_when_write_fails "text" Sample.every_two
             Sample.valid_uuid Sample.uuid_of_doc_id Sample.random_uuid Sample.lower
             Sample.documents Sample.one_vector Sample.fresh "Vector_index_a_Node"
             ltac:(discriminate) ltac:(vm_compute; lia)
             sample_documents_encodable sample_documents_valid_uuids
             fresh_batch_encodable eq_refl H).
  split; reflexivity.
Defined.

Lemma malformed_response_propagates_witness :
  vector_search_kwargs Sample.filtered
  ∧ full_text_kwargs Sample.with_id
  ∧ text_exists Sample.respond_nothing Sample.self "a" Sample.fresh
    = (Raise (KeyError "data"),
       set_executed (executed Sample.fresh ++ [text_exists_query Sample.self "a"])
         Sample.fresh)
  ∧ search_by_full_text "text" Sample.respond_nothing Sample.self "a" Sample.with_id
      Sample.fresh
    = (Raise (KeyError "data"),
       set_executed
         (executed Sample.fresh
          ++ [search_by_full_text_query Sample.self "a" Sample.with_id])
         Sample.fresh).
Proof.
  pose proof (malformed_response_propagates "text" Sample.respond_nothing Sample.self
                "a" [] "a" Sample.filtered Sample.with_id Sample.fresh (KeyError "data")
                filtered_is_vector_search_kwargs with_id_is_full_text_kwargs)
    as (Hexists & _ & Htext & Hget).
  split; [exact filtered_is_vector_search_kwargs|].
  split; [exact with_id_is_full_text_kwargs|].
  split.
  - apply Hexists; [reflexivity|]. by apply Hget.
  - apply Htext; [reflexivity|]. by apply Hget.
Defined.

Lemma rows_before_gap_are_text_rows :
  Forall2 (is_text_row "text") [Sample.row "a" (1 # 10)] [(Sample.parts "a" (1 # 10)).1].
Proof. constructor 2; [text_row|]. constructor 1. Defined.

Lemma rows_before_gap_are_vector_rows :
  Forall2 (is_vector_row "text") [Sample.row "a" (1 # 10)] [Sample.parts "a" (1 # 10)].
Proof. constructor 2; [vector_row|]. constructor 1. Defined.

Lemma search_by_full_text_fails_on_row_without_text_witness :
  full_text_kwargs Sample.with_id
  ∧ Sample.rows_with_gap
    = [Sample.row "a" (1 # 10)] ++ VDict {[ "doc_id" := VStr "b" ]} :: [Sample.row "c" (9 # 10)]
  ∧ search_by_full_text "text" Sample.respond_gap Sample.self "a" Sample.with_id
      Sample.fresh
    = (Raise (KeyError "text"),
       set_executed
         (executed Sample.fresh
          ++ [search_by_full_text_query Sample.self "a" Sample.with_id])
         Sample.fresh).
Proof.
  split; [exact with_id_is_full_text_kwargs|].
  split; [reflexivity|].
  exact (search_by_full_text_fails_on_row_without_text "text" Sample.respond_gap
           Sample.self "a" Sample.with_id Sample.fresh [Sample.row "a" (1 # 10)]
           [Sample.row "c" (9 # 10)] [(Sample.parts "a" (1 # 10)).1]
           {[ "doc_id" := VStr "b" ]}
           with_id_is_full_text_kwargs
           ltac:(vm_compute; reflexivity) ltac:(vm_compute; reflexivity)
           rows_before_gap_are_text_rows ltac:(vm_compute; reflexivity)).
Defined.

Lemma search_by_vector_fails_on_incomplete_row_witness :
  vector_search_kwargs Sample.threshold_half
  ∧ ({[ "doc_id" := VStr "b" ]} : dict) !! "text" = None
  ∧ search_by_vector "text" Sample.respond_gap Sample.self [] Sample.threshold_half
      Sample.fresh
    = (Raise (KeyError "text"),
       set_executed
         (executed Sample.fresh
          ++ [search_by_vector_query Sample.self [] Sample.threshold_half])
         Sample.fresh).
Proof.
  assert (({[ "doc_id" := VStr "b" ]} : dict) !! "text" = None) as H
    by (vm_compute; reflexivity).
  split; [exact threshold_half_is_vector_search_kwargs|].
  split; [exact H|].
  exact (proj1 (search_by_vector_fails_on_incomplete_row "text" Sample.respond_gap
                  Sample.self [] Sample.threshold_half Sample.fresh
                  [Sample.row "a" (1 # 10)] [Sample.row "c" (9 # 10)]
                  [Sample.parts "a" (1 # 10)] {[ "doc_id" := VStr "b" ]}
                  threshold_half_is_vector_search_kwargs
                  ltac:(vm_compute; reflexivity) ltac:(vm_compute; reflexivity)
                  rows_before_gap_are_vector_rows) H).
Defined.

Lemma search_by_vector_threshold_not_a_number_witness :
  vector_search_kwargs Sample.threshold_none
  ∧ num (dict_get Sample.threshold_none "score_threshold" (VFloat 0)) = None
  ∧ search_by_vector "text" Sample.respond_three Sample.self [] Sample.threshold_none
      Sample.fresh
    = (Raise TypeError,
       set_executed
         (executed Sample.fresh
          ++ [search_by_vector_query Sample.self [] Sample.threshold_none])
         Sample.fresh).
Proof.
  assert (num (dict_get Sample.threshold_none "score_threshold" (VFloat 0)) = None)
    as H by (vm_compute; reflexivity).
  split; [exact threshold_none_is_vector_search_kwargs|].
  split; [exact H|].
  exact (search_by_vector_threshold_not_a_number "text" Sample.respond_three
           Sample.self [] Sample.threshold_none Sample.fresh Sample.three_rows
           Sample.three_parts threshold_none_is_vector_search_kwargs
           ltac:(vm_compute; reflexivity) ltac:(vm_compute; reflexivity)
           three_rows_are_vector_rows H).
Defined.

Lemma search_by_vector_monotone_in_threshold_witness :
  vector_search_kwargs Sample.filtered
  ∧ (1 # 10 <= 1 # 2)%Q
  ∧ ∃ docs1 docs2,
      (search_by_vector "text" Sample.respond_three Sample.self []
         (<["score_threshold" := VFloat (1 # 10)]> Sample.filtered) Sample.fresh).1
      = Ok docs1
      ∧ (search_by_vector "text" Sample.respond_three Sample.self []
           (<["score_threshold" := VFloat (1 # 2)]> Sample.filtered) Sample.fresh).1
        = Ok docs2
      ∧ docs2 `sublist_of` docs1.
Proof.
  assert (1 # 10 <= 1 # 2)%Q as H by (by vm_compute).
  split; [exact filtered_is_vector_search_kwargs|].
  split; [exact H|].
  destruct (search_by_vector_monotone_in_threshold "text" Sample.respond_three
              Sample.self [] Sample.filtered Sample.fresh Sample.three_rows
              Sample.three_parts
              (VFloat (1 # 10)) (VFloat (1 # 2)) (1 # 10) (1 # 2)
              filtered_is_vector_search_kwargs
              ltac:(vm_compute; reflexivity) ltac:(vm_compute; reflexivity)
              three_rows_are_vector_rows eq_refl eq_refl H)
    as (_ & _ & docs1 & docs2 & H1 & H2 & Hsub & _).
  by exists docs1, docs2.
Defined.

Lemma search_by_vector_documents_come_from_rows_witness :
  vector_search_kwargs Sample.threshold_half
  ∧ num (dict_get Sample.threshold_half "score_threshold" (VFloat 0)) = Some (1 # 2)
  ∧ ∃ docs,
      (search_by_vector "text" Sample.respond_three Sample.self [] Sample.threshold_half
         Sample.fresh).1 = Ok docs
      ∧ ∀ doc, doc ∈ docs → ∃ d, VDict d ∈ Sample.three_rows
                                 ∧ d !! "text" = Some (VStr (page_content doc)).
Proof.
  assert (num (dict_get Sample.threshold_half "score_threshold" (VFloat 0))
          = Some (1 # 2)) as H by (vm_compute; reflexivity).
  split; [exact threshold_half_is_vector_search_kwargs|].
  split; [exact H|].
  destruct (search_by_vector_documents_come_from_rows "text" Sample.respond_three
              Sample.self [] Sample.threshold_half Sample.fresh Sample.three_rows
              Sample.three_parts (1 # 2) threshold_half_is_vector_search_kwargs
              ltac:(vm_compute; reflexivity) ltac:(vm_compute; reflexivity)
              three_rows_are_vector_rows H) as (docs & Hrun & Hall).
  exists docs. split; [exact Hrun|].
  intros doc Hdoc. destruct (Hall doc Hdoc) as (d & _ & _ & Hin & Htext & _).
  by exists d.
Defined.

Lemma searches_fail_before_the_query_witness :
  top_k_given ∅
  ∧ search_by_vector "text" Sample.respond_three Sample.self [] ∅ Sample.fresh
    = (Raise TypeError, Sample.fresh)
  ∧ search_by_full_text "text" Sample.respond_three Sample.self "a" ∅ Sample.fresh
    = (Raise AttributeError, Sample.fresh).
Proof.
  assert (top_k_given ∅) as H by (left; reflexivity).
  split; [exact H|].
  destruct (searches_fail_before_the_query "text" Sample.respond_three Sample.self
              [] "a" ∅ Sample.fresh H) as [Hvector Htext].
  split; [exact (Hvector eq_refl) | exact (Htext eq_refl eq_refl)].
Defined.

Lemma written_documents_are_read_back_witness :
  vectors_match Sample.documents []
  ∧ encodable_documents Sample.documents
  ∧ valid_uuids Sample.valid_uuid Sample.uuid_of_doc_id Sample.random_uuid
      Sample.documents
  ∧ batch_encodable Sample.fresh
  ∧ full_text_kwargs Sample.with_id
  ∧ Forall (fun d => metadata d !! "text" = None) Sample.documents
  ∧ (search_by_full_text "text" Sample.respond_stored Sample.self "alpha" Sample.with_id
       Sample.written).1
    = Ok ((fun d => mkDocument (page_content d) (_json_serializable <$> metadata d))
          <$> Sample.documents).
Proof.
  assert (Forall (fun d => metadata d !! "text" = None) Sample.documents) as H2
    by (repeat constructor).
  split; [exact sample_documents_no_vectors|].
  split; [exact sample_documents_encodable|].
  split; [exact sample_documents_valid_uuids|].
  split; [exact fresh_batch_encodable|].
  split; [exact with_id_is_full_text_kwargs|].
  split; [exact H2|].
  exact (written_documents_are_read_back "text" Sample.every_two Sample.valid_uuid
           Sample.uuid_of_doc_id Sample.random_uuid Sample.respond_stored Sample.self
           Sample.documents [] "alpha" Sample.with_id Sample.fresh
           sample_documents_no_vectors sample_documents_encodable
           sample_documents_valid_uuids fresh_batch_encodable
           with_id_is_full_text_kwargs H2
           ltac:(vm_compute; reflexivity) ltac:(vm_compute; reflexivity)).
Defined.

Lemma _json_serializable_is_shallow_witness :
  metadata Sample.nested_date !! "seen" = Some (VList [VDatetime Sample.new_year])
  ∧ data_properties_of "text" "delta" (metadata Sample.nested_date) !! "seen"
    = Some (VList [VDatetime Sample.new_year])
  ∧ encodable (VDict (data_properties_of "text" "delta" (metadata Sample.nested_date)))
    = false.
Proof.
  assert (metadata Sample.nested_date !! "seen"
          = Some (VList [VDatetime Sample.new_year])) as H by (vm_compute; reflexivity).
  split; [exact H|].
  exact (proj2 (_json_serializable_is_shallow "text" "delta" "seen"
                  (metadata Sample.nested_date) [VDatetime Sample.new_year]
                  Sample.new_year H ltac:(by apply list_elem_of_here))).
Defined.

Lemma construction_configures_the_batch_witness :
  Sample.empty_backend "http://weaviate:8080" = Some ([], [])
  ∧ (lift (WeaviateConfig_new "http://weaviate:8080" (Some "secret") None)
     ≫= (fun config =>
           __init__ Sample.empty_backend "Vector_index_a_Node" config [])) []
    = (Ok (Sample.self, Client [] [] [] 100 true 3 []), ["http://weaviate:8080"]).
Proof.
  split; [reflexivity|].
  exact (construction_configures_the_batch Sample.empty_backend "http://weaviate:8080"
           "secret" None "Vector_index_a_Node" [] [] [] []
           ltac:(discriminate) ltac:(reflexivity) eq_refl).
Defined.

Lemma construction_failures_witness :
  (lift (WeaviateConfig_new "http://weaviate:8080" None (Some 100%Z))
   ≫= (fun config =>
         __init__ Sample.empty_backend "Vector_index_a_Node" config [])) []
  = (Raise TypeError, [])
  ∧ (lift (WeaviateConfig_new "http://weaviate:8080" (Some "secret") (Some 0%Z))
     ≫= (fun config =>
           __init__ Sample.empty_backend "Vector_index_a_Node" config [])) []
    = (Raise (ValueError "'batch_size' must be positive, i.e. greater that zero (>0)." []),
       ["http://weaviate:8080"]).
Proof.
  split.
  - exact (proj1 (construction_failures Sample.empty_backend "http://weaviate:8080"
                    100 "Vector_index_a_Node" [] [] ltac:(discriminate))).
  - exact (proj2 (construction_failures Sample.empty_backend "http://weaviate:8080"
                    0 "Vector_index_a_Node" [] [] ltac:(discriminate))
             "secret" ltac:(by eexists) ltac:(reflexivity)).
Defined.
